(** * arcrest.gptypes: the geoprocessing parameter types

    A shallow embedding of [src/arcrest/gptypes.py] and the properties of
    its JSON conversion layer.  Python values are a small inductive
    universe, exceptions are an explicit error type, and the functions of
    the Python runtime and of the [geometry] module that the file calls
    but does not define are the fields of two interfaces. *)

From stdpp Require Import gmap strings list fin_maps pretty.
From Stdlib Require Import Ascii ZArith SpecFloat.

Set Warnings "-register-all".
Local Open Scope Z_scope.

(** ** Python values *)

(** [datetime.date] and [datetime.datetime] objects. *)
Inductive pydate : Type :=
  | Date (year month day : Z)
  | DateTime (year month day hour minute second microsecond : Z).

(** The values that flow through the module: JSON data as [json.loads]
    delivers it, tuples, dates, and bound methods (the one kind of
    non-data object an attribute access of this file can produce).
    [PStr] is a byte string ([str]).  A [unicode] object of ASCII text
    behaves in every function of this file as the byte string of the
    same text and is represented by it; a [unicode] object with a
    non-ASCII character is outside this universe. *)
Inductive pyval : Type :=
  | PNone
  | PBool (b : bool)
  | PInt (z : Z)
  | PFloat (f : spec_float)
  | PStr (s : string)
  | PList (xs : list pyval)
  | PTuple (xs : list pyval)
  | PDict (d : gmap string pyval)
  | PDate (d : pydate)
  | PBoundMethod (cls name : string).

(** Exceptions.  A message built with [%] keeps its template and its
    argument apart. *)
Inductive exn : Type :=
  | AssertionError (template : string) (args : list pyval)
  | ValueError (template : string) (args : list pyval)
  | TypeError
  | KeyError (key : string)
  | AttributeError (name : string)
  | NameError (name : string)
  | OverflowError.

Inductive result (A : Type) : Type :=
  | OK (a : A)
  | Raise (e : exn).
Arguments OK {A} a.
Arguments Raise {A} e.

Global Instance result_ret : MRet result := λ A a, OK a.
Global Instance result_bind : MBind result := λ A B k r,
  match r with
  | OK a => k a
  | Raise e => Raise e
  end.

(** [try: r  except: handler] with a bare [except]. *)
Definition try_except {A} (r handler : result A) : result A :=
  match r with
  | OK a => OK a
  | Raise _ => handler
  end.


(** ** Strings *)

(** [s.replace(old, new)] where [old] is one character, which is how every
    call of the file uses it. *)
Fixpoint replace (old : ascii) (new : string) (s : string) : string :=
  match s with
  | EmptyString => EmptyString
  | String c rest =>
      if Ascii.eqb c old then new +:+ replace old new rest
      else String c (replace old new rest)
  end.

(** [c in s] for a one-character [c]. *)
Fixpoint contains (c : ascii) (s : string) : bool :=
  match s with
  | EmptyString => false
  | String c' rest => Ascii.eqb c' c || contains c rest
  end.

(** ** The interpreter

    The file runs on Python 2 before and from version 2.6: it falls back
    to [simplejson] where the [json] module of 2.6 is missing.  The two
    differ in [type.__init__]. *)
Inductive interpreter : Type :=
  | Before26
  | From26.

(** ** The runtime interface

    Library functions the file calls: the string forms of [float], [long]
    and [str], [datetime.strptime] and [strftime], and the JSON encoder
    behind [json.dumps]. *)
Class Runtime : Type := {
  (** [float(s)] on a string; [None] is a [ValueError]. *)
  float_of_str : string → option spec_float;
  (** [long(s)] on a string; [None] is a [ValueError]. *)
  long_of_str : string → option Z;
  (** [str(x)] on a value that is not a string. *)
  str_of : pyval → string;
  (** [datetime.datetime.strptime(date_string, format)]. *)
  strptime : string → string → result pydate;
  (** [d.strftime(format)]. *)
  strftime : pydate → string → result string;
  (** The text [json.dumps] writes for a serialisable value. *)
  JSONEncoder : pyval → string;
}.

(** ** Builtins *)

(** Truth value of an object, as [bool(x)] and [if x:] compute it. *)
Definition py_bool (v : pyval) : bool :=
  match v with
  | PNone => false
  | PBool b => b
  | PInt z => negb (z =? 0)
  | PFloat (S754_zero _) => false
  | PFloat _ => true
  | PStr s => negb (String.eqb s EmptyString)
  | PList xs | PTuple xs => negb (length xs =? 0)%nat
  | PDict d => negb (size d =? 0)%nat
  | PDate _ => true
  | PBoundMethod _ _ => true
  end.

(** The double nearest to an integer; an integer beyond the range of a
    double is an [OverflowError]. *)
Definition float_of_Z (z : Z) : result spec_float :=
  match binary_normalize 53 1024 z 0 false with
  | S754_infinity _ => Raise OverflowError
  | f => OK f
  end.

Definition Z_of_float (f : spec_float) : result Z :=
  match f with
  | S754_zero _ => OK 0
  | S754_infinity _ => Raise OverflowError
  | S754_nan => Raise (ValueError "cannot convert float NaN to integer" [])
  | S754_finite s m e =>
      let magnitude :=
        if 0 <=? e then Z.shiftl (Z.pos m) e else Z.shiftr (Z.pos m) (- e) in
      OK (if s then - magnitude else magnitude)
  end.

(** [value[key]] with a string key. *)
Definition getitem (value : pyval) (key : string) : result pyval :=
  match value with
  | PDict d =>
      match d !! key with
      | Some v => OK v
      | None => Raise (KeyError key)
      end
  | _ => Raise TypeError
  end.

(** [json.dumps]: dates and bound methods are not serialisable,
    wherever they sit in the value. *)
Fixpoint serialisable (v : pyval) : bool :=
  match v with
  | PList xs | PTuple xs => forallb serialisable xs
  | PDict d => map_fold (λ _ x acc, serialisable x && acc) true d
  | PDate _ | PBoundMethod _ _ => false
  | _ => true
  end.

Section Builtins.
Context `{Runtime}.

Definition py_float (v : pyval) : result spec_float :=
  match v with
  | PBool b => float_of_Z (if b then 1 else 0)
  | PInt z => float_of_Z z
  | PFloat f => OK f
  | PStr s =>
      match float_of_str s with
      | Some f => OK f
      | None => Raise (ValueError "could not convert string to float: %s" [v])
      end
  | _ => Raise TypeError
  end.

Definition py_long (v : pyval) : result Z :=
  match v with
  | PBool b => OK (if b then 1 else 0)
  | PInt z => OK z
  | PFloat f => Z_of_float f
  | PStr s =>
      match long_of_str s with
      | Some z => OK z
      | None =>
          Raise (ValueError "invalid literal for long() with base 10: %r" [v])
      end
  | _ => Raise TypeError
  end.

(** [str(v)]: a byte string is returned as it is. *)
Definition py_str (v : pyval) : result string :=
  match v with
  | PStr s => OK s
  | _ => OK (str_of v)
  end.

Definition json_dumps (v : pyval) : result string :=
  if serialisable v then OK (JSONEncoder v) else Raise TypeError.
End Builtins.

(** The arguments of [template % arg] for a template with one
    conversion: a tuple on the right is the argument list and must have
    exactly one element, or the formatting is a [TypeError]; any other
    value is the one argument. *)
Definition mod_args (arg : pyval) : result (list pyval) :=
  match arg with
  | PTuple [x] => OK [x]
  | PTuple _ => Raise TypeError
  | _ => OK [arg]
  end.

(** [x in s] for a set [s] hashes [x] first: lists and dicts, and tuples
    that hold one, are unhashable. *)
Fixpoint hashable (v : pyval) : bool :=
  match v with
  | PList _ | PDict _ => false
  | PTuple xs => forallb hashable xs
  | _ => true
  end.

(** A list comprehension whose body can raise: the first exception ends
    it. *)
Fixpoint mapM {A B} (f : A → result B) (l : list A) : result (list B) :=
  match l with
  | [] => OK []
  | a :: l' => b ← f a; bs ← mapM f l'; OK (b :: bs)
  end.

(** ** The type registry: [GPBaseType.__metaclass__] *)

(** A class object, as far as the registry looks at it. *)
Record pyclass : Type := ClassObject {
  __name__ : string;
  __bases__ : list string;
}.

(** The unbound method [type.__init__] called on [self] with [nargs]
    further arguments.  Before 2.6 [type] has no [__init__] of its own:
    the attribute is [object.__init__], which takes any object and
    ignores its arguments.  From 2.6 on it is the [__init__] of [type]:
    the descriptor requires a type object as [self], and one or three
    further arguments. *)
Definition type_init (py : interpreter) (self : pyclass + pyval)
    (nargs : nat) : result unit :=
  match py with
  | Before26 => OK tt
  | From26 =>
      match self with
      | inl _ =>
          if bool_decide (nargs = 1 ∨ nargs = 3)%nat then OK tt
          else Raise TypeError
      | inr _ => Raise TypeError
      end
  end.

Module GPBaseType.

(** What the global name [GPBaseType] of the module is bound to: nothing
    ([None]) until the class statement of [GPBaseType] has finished,
    then the class, seen through its attribute [_gp_type_mapping]. *)
Abbreviation globals := (option (gmap string pyclass)).

(** [GPBaseType._gp_type_mapping[cls.__name__] = cls] *)
Definition setitem (cls : pyclass) (g : globals) : result globals :=
  match g with
  | None => Raise (NameError "GPBaseType")
  | Some _gp_type_mapping =>
      OK (Some (<[__name__ cls := cls]> _gp_type_mapping))
  end.

Module __metaclass__.
(** [__init__(cls, name, bases, dict)], where [name] is [cls.__name__].
    The result is the registry after the call and how the call ended.
    The first statement, [type.__init__(name, bases, dict)], passes the
    name where the class belongs: when it raises, nothing has been
    registered.  What follows is the [try] block: a [NameError] from
    the registration is swallowed by [except: pass]. *)
Definition __init__ (py : interpreter) (cls : pyclass) (g : globals)
  : globals * result unit :=
  match type_init py (inr (PStr (__name__ cls))) 2 with
  | Raise e => (g, Raise e)
  | OK _ =>
      (match
         (if negb (contains "|" (__name__ cls)) then setitem cls g else OK g)
       with
       | OK g' => g'
       | Raise _ => g
       end, OK tt)
  end.
End __metaclass__.

(** The class statement of [GPBaseType] itself: the metaclass runs on the
    new class, then the name is bound; the class body gave the class an
    empty [_gp_type_mapping].  When the metaclass raises, the statement
    raises and the name is not bound. *)
Definition class_GPBaseType : pyclass :=
  {| __name__ := "GPBaseType"; __bases__ := ["object"] |}.

Definition define_GPBaseType (py : interpreter) (g : globals)
  : globals * result unit :=
  match __metaclass__.__init__ py class_GPBaseType g with
  | (_, OK _) => (Some ∅, OK tt)
  | (g', Raise e) => (g', Raise e)
  end.

(** Any later class statement whose metaclass is this one. *)
Definition define (py : interpreter) (g : globals) (cls : pyclass)
  : globals * result unit :=
  __metaclass__.__init__ py cls g.

(** Class statements one after the other: the first one that raises
    ends the sequence. *)
Fixpoint class_statements (py : interpreter) (g : globals)
    (defs : list pyclass) : globals * result unit :=
  match defs with
  | [] => (g, OK tt)
  | cls :: rest =>
      match define py g cls with
      | (g', OK _) => class_statements py g' rest
      | (g', Raise e) => (g', Raise e)
      end
  end.

(** The other class statements of the file, in source order. *)
Definition subclasses : list pyclass :=
  [ ClassObject "GPSimpleType" ["GPBaseType"];
    ClassObject "GPBoolean" ["GPSimpleType"];
    ClassObject "GPDouble" ["GPSimpleType"];
    ClassObject "GPLong" ["GPSimpleType"];
    ClassObject "GPString" ["GPSimpleType"];
    ClassObject "GPLinearUnit" ["GPBaseType"];
    ClassObject "GPFeatureRecordSetLayer" ["GPBaseType"];
    ClassObject "GPRecordSet" ["GPBaseType"];
    ClassObject "GPDate" ["GPBaseType"];
    ClassObject "GPDataFile" ["GPBaseType"];
    ClassObject "GPUrlWithFormatType" ["GPBaseType"];
    ClassObject "GPRasterData" ["GPUrlWithFormatType"];
    ClassObject "GPRasterLayer" ["GPUrlWithFormatType"] ].

(** Importing the module: the registry it leaves and how the import
    ends. *)
Definition module_loaded (py : interpreter) : globals * result unit :=
  match define_GPBaseType py None with
  | (g, OK _) => class_statements py g subclasses
  | (g, Raise e) => (g, Raise e)
  end.

(** [GPBaseType._gp_type_mapping.get(name)] *)
Definition lookup_type (g : globals) (name : string) : option pyclass :=
  m ← g; m !! name.

End GPBaseType.

(** ** Scalar types *)

Inductive scalar : Type := GPBoolean | GPDouble | GPLong | GPString.

Module GPSimpleType.
Record instance : Type := { cls : scalar; value : pyval }.

Section WithRuntime.
Context `{Runtime}.

(** The class attribute [__conversion__] of each subclass: [bool],
    [float], [long], [str]. *)
Definition __conversion__ (cls : scalar) (v : pyval) : result pyval :=
  match cls with
  | GPBoolean => OK (PBool (py_bool v))
  | GPDouble => f ← py_float v; OK (PFloat f)
  | GPLong => z ← py_long v; OK (PInt z)
  | GPString => s ← py_str v; OK (PStr s)
  end.

Definition __init__ (cls : scalar) (val : pyval) : instance :=
  {| cls := cls; value := val |}.

Definition _json_struct (self : instance) : result pyval :=
  __conversion__ (cls self) (value self).

Definition from_json_struct (cls : scalar) (value : pyval) : result pyval :=
  __conversion__ cls value.
End WithRuntime.
End GPSimpleType.

(** ** Linear units *)

Module GPLinearUnit.
Record instance : Type := { distance : spec_float; units : string }.

Definition allowed_units : gset string :=
  list_to_set
    [ "esriCentimeters"; "esriDecimalDegrees"; "esriDecimeters";
      "esriFeet"; "esriInches"; "esriKilometers"; "esriMeters";
      "esriMiles"; "esriMillimeters"; "esriNauticalMiles"; "esriPoints";
      "esriUnknownUnits"; "esriYards" ].

Section WithRuntime.
Context `{Runtime}.

(** [__init__(self, value, unit=None)].  The message of the assertion
    is formatted when the test has failed; for a string that cannot
    fail. *)
Definition __init__ (value unit : pyval) : result instance :=
  let '(value, unit) :=
    match value with
    | PList [a; b] | PTuple [a; b] => (a, b)
    | _ => (value, unit)
    end in
  value ← py_float value;
  match unit with
  | PNone => OK {| distance := value; units := "esriMeters" |}
  | PStr u =>
      if decide (u ∈ allowed_units)
      then OK {| distance := value; units := u |}
      else Raise (AssertionError "Unit %r not valid" [unit])
  | _ =>
      if hashable unit
      then args ← mod_args unit;
           Raise (AssertionError "Unit %r not valid" args)
      else Raise TypeError
  end.

Definition _json_struct (self : instance) : pyval :=
  PDict {[ "distance" := PFloat (distance self);
           "units" := PStr (units self) ]}.

Definition from_json_struct (val : pyval) : result instance :=
  d ← getitem val "distance";
  u ← getitem val "units";
  __init__ d u.
End WithRuntime.
End GPLinearUnit.

(** ** Dates *)

Module GPDate.
Record instance : Type := { date : pydate; format : string }.

Definition __date_format : string := "%a %b %d %H:%M:%S %Z %Y".

(** The default of the [format] argument of [__init__]. *)
Definition default_format : string := "%Y-%m-%d".

(** The characters the loop of [from_json_struct] runs over. *)
Definition directives : string := "%aAbBcdHIjmMpSUwWxXyYZ".

(** [for chr in directives: formatstring = formatstring.replace(chr, '%'+chr)] *)
Definition reescape (formatstring : string) : string :=
  foldl (λ fs chr, replace chr (String "%" (String chr EmptyString)) fs)
        formatstring (String.list_ascii_of_string directives).

Section WithRuntime.
Context `{Runtime}.

Definition __init__ (date : pyval) (format : string) : result instance :=
  d ← match date with
      | PStr s => try_except (strptime s format) (strptime s __date_format)
      | PDate d => OK d
      | _ => args ← mod_args date;
             Raise (ValueError "Cannot convert %r to a date" args)
      end;
  OK {| date := d; format := format |}.

Definition _json_struct (self : instance) : result pyval :=
  s ← strftime (date self) (format self);
  OK (PDict {[ "date" := PStr s;
               "format" := PStr (replace "%" EmptyString (format self)) ]}).

(** [None] is the value Python returns when the body falls off its
    end.  A format that is not a string has no [replace], except a date
    object, whose [replace] takes integers. *)
Definition from_json_struct (value : pyval) : result (option instance) :=
  match value with
  | PDict _ =>
      datestring ← getitem value "date";
      formatstring ← getitem value "format";
      match formatstring with
      | PStr f => x ← __init__ datestring (reescape f); OK (Some x)
      | PDate _ => Raise TypeError
      | _ => Raise (AttributeError "replace")
      end
  | PStr _ => x ← __init__ value __date_format; OK (Some x)
  | _ => OK None
  end.
End WithRuntime.
End GPDate.

(** ** Data files *)

Module GPDataFile.
Record instance : Type := { url : pyval }.

Definition __init__ (url : pyval) : instance := {| url := url |}.

(** [_json_struct] is declared without [@property] here: this is what a
    call [self._json_struct()] returns. *)
Definition _json_struct (self : instance) : pyval :=
  PDict {[ "url" := url self ]}.

Definition from_json_struct (value : pyval) : result instance :=
  u ← getitem value "url";
  OK (__init__ u).
End GPDataFile.

(** ** Raster data and raster layers *)

Inductive urlformat : Type := GPRasterData | GPRasterLayer.

Module GPUrlWithFormatType.
Record instance : Type := { cls : urlformat; url : pyval; format : pyval }.

Definition __init__ (cls : urlformat) (url format : pyval) : instance :=
  {| cls := cls; url := url; format := format |}.

Definition _json_struct (self : instance) : pyval :=
  PDict {[ "url" := url self; "format" := format self ]}.

Definition from_json_struct (cls : urlformat) (value : pyval)
  : result instance :=
  u ← getitem value "url";
  f ← getitem value "format";
  OK (__init__ cls u f).
End GPUrlWithFormatType.

(** ** Record sets *)

Module GPRecordSet.
Record instance : Type := { features : pyval }.

Definition __init__ (arg : pyval) : instance := {| features := arg |}.
End GPRecordSet.

(** ** The geometry interface

    What the file uses of the [geometry] module, which is not part of
    it. *)
Class GeometryLib : Type := {
  (** Instances of [geometry.Geometry]. *)
  Geometry : Type;
  (** Instances of [geometry.SpatialReference]. *)
  SpatialReference : Type;
  (** Truth value of a spatial reference object. *)
  SpatialReference_bool : SpatialReference → bool;
  (** [geom.__geometry_type__] *)
  __geometry_type__ : Geometry → string;
  (** [getattr(geom, 'attributes', ...)]: [None] when there is no such
      attribute. *)
  attributes : Geometry → option (gmap string pyval);
  (** [geom._json_struct_for_featureset] *)
  _json_struct_for_featureset : Geometry → pyval;
  (** [sr._json_struct] of a spatial reference object. *)
  SpatialReference_json_struct : SpatialReference → pyval;
}.

(** What can be passed where a spatial reference is expected: a plain
    value (a well-known id, [None], ...) or a spatial reference object. *)
Inductive srarg `{GeometryLib} : Type :=
  | SRValue (v : pyval)
  | SRObject (s : SpatialReference).

Class GeometryFunctions `{GeometryLib} : Type := {
  (** [geom.spatialReference] *)
  spatialReference : Geometry → srarg;
  (** The constructor [geometry.SpatialReference(x)]. *)
  SpatialReference_new : srarg → result SpatialReference;
  (** [geometry.convert_from_json(struct)] *)
  convert_from_json : pyval → result srarg;
  (** [geometry.convert_from_json(struct, attributes)] *)
  convert_from_json_attributes : pyval → pyval → result Geometry;
}.

Definition srarg_bool `{GeometryLib} (sr : srarg) : bool :=
  match sr with
  | SRValue v => py_bool v
  | SRObject s => SpatialReference_bool s
  end.

(** ** Feature record set layers *)

Module GPFeatureRecordSetLayer.
Section WithGeometry.
Context `{GeometryFunctions}.

Record instance : Type := {
  features : list Geometry;
  spatialReference' : SpatialReference;
  fields : gset string;
}.

(** The first argument of [__init__]: one geometry or a list. *)
Inductive geometry_arg : Type :=
  | One (g : Geometry)
  | Many (gs : list Geometry).

Definition row_fields (row : Geometry) : gset string :=
  dom (default ∅ (attributes row)).

(** [__init__(self, Geometry, sr=None)] *)
Definition __init__ (Geometry : geometry_arg) (sr : srarg)
  : result instance :=
  let features :=
    match Geometry with
    | One g => [g]
    | Many gs => gs
    end in
  spatialreference ←
    (if srarg_bool sr then SpatialReference_new sr
     else match features with
          | first :: _ => SpatialReference_new (spatialReference first)
          | [] => Raise (ValueError "Could not determine spatial reference" [])
          end);
  OK {| features := features;
        spatialReference' := spatialreference;
        fields := ⋃ (row_fields <$> features) |}.

(** [assert len(geometry_types) == 1] and [list(geometry_types)[0]]: the
    set of tags, listed, is exactly one tag. *)
Definition _json_struct (self : instance) : result pyval :=
  let geometry_types : gset string :=
    list_to_set (__geometry_type__ <$> features self) in
  match elements geometry_types with
  | [geometry_type] =>
      OK (PDict
            {[ "geometryType" := PStr geometry_type;
               "spatialReference" :=
                 SpatialReference_json_struct (spatialReference' self);
               "features" :=
                 PList (_json_struct_for_featureset <$> features self) ]})
  | _ => Raise (AssertionError "Must have consistent geometries" [])
  end.

(** Iterating [value['features']]: over a dict or a string the items
    are strings, which [geo['geometry']] rejects. *)
Definition from_json_struct (value : pyval) : result instance :=
  sr_json ← getitem value "spatialReference";
  spatialreference ← convert_from_json sr_json;
  features_json ← getitem value "features";
  geometries ←
    match features_json with
    | PList geos | PTuple geos =>
        mapM (λ geo, g ← getitem geo "geometry";
                     a ← getitem geo "attributes";
                     convert_from_json_attributes g a) geos
    | PDict d => if decide (d = ∅) then OK [] else Raise TypeError
    | PStr s => if decide (s = EmptyString) then OK [] else Raise TypeError
    | _ => Raise TypeError
    end;
  __init__ (Many geometries) spatialreference.
End WithGeometry.
End GPFeatureRecordSetLayer.

(** ** Attribute lookup and class methods across the types *)

Inductive gptype : Type :=
  | TSimple (c : scalar)
  | TLinearUnit
  | TFeatureRecordSetLayer
  | TRecordSet
  | TDate
  | TDataFile
  | TUrlWithFormat (c : urlformat).

Section Dispatch.
Context `{Runtime} `{GeometryFunctions}.

Inductive instance : Type :=
  | ISimple (x : GPSimpleType.instance)
  | ILinearUnit (x : GPLinearUnit.instance)
  | IFeatureRecordSetLayer (x : GPFeatureRecordSetLayer.instance)
  | IRecordSet (x : GPRecordSet.instance)
  | IDate (x : GPDate.instance)
  | IDataFile (x : GPDataFile.instance)
  | IUrlWithFormat (x : GPUrlWithFormatType.instance).

Definition type_of (self : instance) : gptype :=
  match self with
  | ISimple x => TSimple (GPSimpleType.cls x)
  | ILinearUnit _ => TLinearUnit
  | IFeatureRecordSetLayer _ => TFeatureRecordSetLayer
  | IRecordSet _ => TRecordSet
  | IDate _ => TDate
  | IDataFile _ => TDataFile
  | IUrlWithFormat x => TUrlWithFormat (GPUrlWithFormatType.cls x)
  end.

(** What a call or an attribute access hands back: a plain value or an
    instance of one of the types. *)
Inductive object : Type :=
  | Plain (v : pyval)
  | Instance (x : instance).

(** The attribute access [self._json_struct].  Where the class declares
    a property its body runs; [GPDataFile] declares a plain method, so
    the access yields the bound method; [GPRecordSet] has no such
    attribute. *)
Definition getattr_json_struct (self : instance) : result pyval :=
  match self with
  | ISimple x => GPSimpleType._json_struct x
  | ILinearUnit x => OK (GPLinearUnit._json_struct x)
  | IFeatureRecordSetLayer x => GPFeatureRecordSetLayer._json_struct x
  | IRecordSet _ => Raise (AttributeError "_json_struct")
  | IDate x => GPDate._json_struct x
  | IDataFile _ => OK (PBoundMethod "GPDataFile" "_json_struct")
  | IUrlWithFormat x => OK (GPUrlWithFormatType._json_struct x)
  end.

(** [GPBaseType.__str__], inherited by every type. *)
Definition __str__ (self : instance) : result string :=
  v ← getattr_json_struct self;
  json_dumps v.

(** [cls.from_json_struct(value)] *)
Definition from_json_struct (cls : gptype) (value : pyval) : result object :=
  match cls with
  | TSimple c => v ← GPSimpleType.from_json_struct c value; OK (Plain v)
  | TLinearUnit =>
      x ← GPLinearUnit.from_json_struct value; OK (Instance (ILinearUnit x))
  | TFeatureRecordSetLayer =>
      x ← GPFeatureRecordSetLayer.from_json_struct value;
      OK (Instance (IFeatureRecordSetLayer x))
  | TRecordSet => Raise (AttributeError "from_json_struct")
  | TDate =>
      r ← GPDate.from_json_struct value;
      OK (match r with
          | Some x => Instance (IDate x)
          | None => Plain PNone
          end)
  | TDataFile =>
      x ← GPDataFile.from_json_struct value; OK (Instance (IDataFile x))
  | TUrlWithFormat c =>
      x ← GPUrlWithFormatType.from_json_struct c value;
      OK (Instance (IUrlWithFormat x))
  end.

(** [type(x).from_json_struct(x._json_struct)] *)
Definition roundtrip (x : instance) : result object :=
  v ← getattr_json_struct x;
  from_json_struct (type_of x) v.
End Dispatch.

(** ** A runtime and a geometry module to evaluate examples

    Each function follows the library function it stands for on the
    inputs it accepts: numeric [strftime] and [strptime] directives with
    zero-padded fields, plain decimal literals, and the JSON text of
    values without floats.  Other inputs are rejected or rendered by a
    type name. *)
Module Example.

Definition digit (n : Z) : ascii :=
  ascii_of_nat (48 + Z.to_nat (Z.modulo n 10)).

(** [n] in decimal, zero-padded to [width] digits. *)
Fixpoint decimal (width : nat) (n : Z) : string :=
  match width with
  | O => EmptyString
  | S w => decimal w (Z.div n 10) +:+ String (digit n) EmptyString
  end.

Definition digit_value (c : ascii) : option Z :=
  let n := Z.of_nat (nat_of_ascii c) in
  if (48 <=? n) && (n <=? 57) then Some (n - 48) else None.

Fixpoint take_digits (width : nat) (s : string) (acc : Z)
  : option (Z * string) :=
  match width with
  | O => Some (acc, s)
  | S w =>
      match s with
      | String c s' => d ← digit_value c; take_digits w s' (10 * acc + d)
      | EmptyString => None
      end
  end.

(** Width of the numeric directives. *)
Definition width (c : ascii) : option nat :=
  if Ascii.eqb c "Y" then Some 4%nat
  else if existsb (Ascii.eqb c) ["m"; "d"; "H"; "M"; "S"]%char
       then Some 2%nat else None.

Definition field (d : pydate) (c : ascii) : Z :=
  let '(y, m, dd, HH, MM, SS) :=
    match d with
    | Date y m dd => (y, m, dd, 0, 0, 0)
    | DateTime y m dd HH MM SS _ => (y, m, dd, HH, MM, SS)
    end in
  if Ascii.eqb c "Y" then y else if Ascii.eqb c "m" then m
  else if Ascii.eqb c "d" then dd else if Ascii.eqb c "H" then HH
  else if Ascii.eqb c "M" then MM else SS.

Fixpoint format_fields (d : pydate) (fmt : string) : result string :=
  match fmt with
  | EmptyString => OK EmptyString
  | String c EmptyString => OK (String c EmptyString)
  | String c (String c' rest as tail) =>
      if Ascii.eqb c "%" then
        if Ascii.eqb c' "%" then
          t ← format_fields d rest; OK (String "%" t)
        else
          match width c' with
          | Some w => t ← format_fields d rest; OK (decimal w (field d c') +:+ t)
          | None => Raise (ValueError "Invalid format string" [])
          end
      else t ← format_fields d tail; OK (String c t)
  end.

(** [strftime] refuses years before 1900. *)
Definition strftime_numeric (d : pydate) (fmt : string) : result string :=
  if field d "Y" <? 1900
  then Raise (ValueError "year=%d is before 1900" [PInt (field d "Y")])
  else format_fields d fmt.

Fixpoint parse_fields (fmt s : string) (acc : list (ascii * Z))
  : option (list (ascii * Z)) :=
  match fmt with
  | EmptyString => if decide (s = EmptyString) then Some acc else None
  | String c EmptyString =>
      if Ascii.eqb c "%" then None
      else if decide (s = String c EmptyString) then Some acc else None
  | String c (String c' rest as tail) =>
      if Ascii.eqb c "%" then
        if Ascii.eqb c' "%" then
          match s with
          | String c0 s' => if Ascii.eqb c0 "%" then parse_fields rest s' acc else None
          | EmptyString => None
          end
        else
          w ← width c';
          '(n, s') ← take_digits w s 0;
          parse_fields rest s' ((c', n) :: acc)
      else
        match s with
        | String c0 s' => if Ascii.eqb c0 c then parse_fields tail s' acc else None
        | EmptyString => None
        end
  end.

Definition found (fields : list (ascii * Z)) (c : ascii) (default : Z) : Z :=
  match list_find (λ p, p.1 = c) (reverse fields) with
  | Some (_, (_, n)) => n
  | None => default
  end.

Definition leap (y : Z) : bool :=
  (Z.modulo y 4 =? 0) && (negb (Z.modulo y 100 =? 0) || (Z.modulo y 400 =? 0)).

Definition days_in_month (y m : Z) : Z :=
  if m =? 2 then (if leap y then 29 else 28)
  else if existsb (Z.eqb m) [4; 6; 9; 11] then 30 else 31.

Definition strptime_numeric (s fmt : string) : result pydate :=
  let mismatch :=
    Raise (ValueError "time data %r does not match format %r" [PStr s; PStr fmt]) in
  match parse_fields fmt s [] with
  | None => mismatch
  | Some fields =>
      let y := found fields "Y" 1900 in
      let m := found fields "m" 1 in
      let d := found fields "d" 1 in
      let HH := found fields "H" 0 in
      let MM := found fields "M" 0 in
      let SS := found fields "S" 0 in
      if (1 <=? y) && (1 <=? m) && (m <=? 12) && (1 <=? d)
         && (d <=? days_in_month y m) && (HH <? 24) && (MM <? 60) && (SS <? 60)
      then OK (DateTime y m d HH MM SS 0)
      else mismatch
  end.

(** A decimal literal with an optional sign. *)
Definition decimal_literal (s : string) : option Z :=
  let digits (t : string) :=
    if decide (t = EmptyString) then None
    else '(n, rest) ← take_digits (String.length t) t 0;
         if decide (rest = EmptyString) then Some n else None in
  match s with
  | String c t =>
      if Ascii.eqb c "-" then Z.opp <$> digits t
      else if Ascii.eqb c "+" then digits t
      else digits s
  | EmptyString => None
  end.

Definition float_literal (s : string) : option spec_float :=
  z ← decimal_literal s;
  match float_of_Z z with
  | OK f => Some f
  | Raise _ => None
  end.

Definition dquote : ascii := ascii_of_nat 34.

Definition quoted (s : string) : string :=
  String dquote
    (replace dquote (String "\" (String dquote EmptyString)) (replace "\" "\\" s))
  +:+ String dquote EmptyString.

Definition joined (items : list string) : string :=
  match items with
  | [] => EmptyString
  | x :: xs => foldl (λ acc y, acc +:+ ", " +:+ y) x xs
  end.

Fixpoint json_text (v : pyval) : string :=
  match v with
  | PNone => "null"
  | PBool b => if b then "true" else "false"
  | PInt z => pretty z
  | PFloat _ => "<float>"
  | PStr s => quoted s
  | PList xs | PTuple xs => "[" +:+ joined (json_text <$> xs) +:+ "]"
  | PDict d =>
      "{" +:+ joined (map_fold (λ k x acc, (quoted k +:+ ": " +:+ json_text x) :: acc) [] d)
          +:+ "}"
  | PDate _ => "<date>"
  | PBoundMethod _ _ => "<bound method>"
  end.

Definition str_text (v : pyval) : string :=
  match v with
  | PNone => "None"
  | PBool b => if b then "True" else "False"
  | PStr s => s
  | _ => json_text v
  end.

#[export] Instance runtime : Runtime := {|
  float_of_str := float_literal;
  long_of_str := decimal_literal;
  str_of := str_text;
  strptime := strptime_numeric;
  strftime := strftime_numeric;
  JSONEncoder := json_text;
|}.

(** A geometry module with the least a feature needs: a type tag, the
    well-known id of its spatial reference, and attributes. *)
Record feature : Type := Feature {
  tag : string;
  wkid : Z;
  attrs : option (gmap string pyval);
}.

#[export] Instance geometry : GeometryLib := {|
  Geometry := feature;
  SpatialReference := Z;
  SpatialReference_bool := λ _, true;
  __geometry_type__ := tag;
  attributes := attrs;
  _json_struct_for_featureset := λ g,
    PDict {[ "geometry" := PDict {[ "type" := PStr (tag g); "wkid" := PInt (wkid g) ]};
             "attributes" := PDict (default ∅ (attrs g)) ]};
  SpatialReference_json_struct := λ z, PDict {[ "wkid" := PInt z ]};
|}.

#[export] Instance geometry_functions : @GeometryFunctions geometry := {|
  spatialReference := λ g, SRValue (PInt (wkid g));
  SpatialReference_new := λ sr,
    match sr with
    | SRObject z => OK z
    | SRValue (PInt z) => OK z
    | SRValue (PDict d) =>
        match d !! "wkid" with
        | Some (PInt z) => OK z
        | _ => Raise (KeyError "wkid")
        end
    | SRValue _ => Raise TypeError
    end;
  convert_from_json := λ v,
    match v with
    | PDict d =>
        match d !! "wkid" with
        | Some (PInt z) => OK (SRObject z)
        | _ => Raise (KeyError "wkid")
        end
    | _ => Raise TypeError
    end;
  convert_from_json_attributes := λ g a,
    match g, a with
    | PDict d, PDict at_ =>
        match d !! "type", d !! "wkid" with
        | Some (PStr t), Some (PInt z) => OK (Feature t z (Some at_))
        | _, _ => Raise (KeyError "type")
        end
    | _, _ => Raise TypeError
    end;
|}.

Definition jan15 : pydate := Date 2020 1 15.
End Example.

(** ** Notions the statements use *)

(** Putting a percent sign before every character of [s] that occurs in
    [alphabet], and before no other. *)
Fixpoint insert_percent (alphabet s : string) : string :=
  match s with
  | EmptyString => EmptyString
  | String c rest =>
      if contains c alphabet
      then String "%" (String c (insert_percent alphabet rest))
      else String c (insert_percent alphabet rest)
  end.

(** The directive letters, without the percent sign. *)
Definition claimed_directives : string := "aAbBcdHIjmMpSUwWxXyYZ".

(** [s] with every percent sign removed. *)
Definition without_percent (s : string) : string :=
  String.string_of_list_ascii
    (filter (λ c, c ≠ "%"%char) (String.list_ascii_of_string s)).

(** The bare primitive each scalar type converts to. *)
Definition primitive (c : scalar) (v : pyval) : Prop :=
  match c, v with
  | GPBoolean, PBool _ | GPDouble, PFloat _ | GPLong, PInt _
  | GPString, PStr _ => True
  | _, _ => False
  end.

(** [isinstance(value, dict)] and [isinstance(value, basestring)]. *)
Definition isinstance_dict (value : pyval) : bool :=
  match value with PDict _ => true | _ => false end.

Definition isinstance_basestring (value : pyval) : bool :=
  match value with PStr _ => true | _ => false end.

(** The features a first argument of [GPFeatureRecordSetLayer] stands
    for. *)
Definition features_of `{GeometryLib}
    (arg : GPFeatureRecordSetLayer.geometry_arg) : list Geometry :=
  match arg with
  | GPFeatureRecordSetLayer.One g => [g]
  | GPFeatureRecordSetLayer.Many gs => gs
  end.

(** The two conditions a feature record set layer raises. *)
Definition MissingSpatialReference : exn :=
  ValueError "Could not determine spatial reference" [].

Definition InconsistentGeometry : exn :=
  AssertionError "Must have consistent geometries" [].

(** A format in which every percent sign is followed by a directive
    letter and no other character is a directive letter or a percent
    sign: the formats that survive the stripping of [_json_struct] and
    the re-escaping of [from_json_struct]. *)
Fixpoint escaped (f : string) : bool :=
  match f with
  | EmptyString => true
  | String c rest =>
      if Ascii.eqb c "%" then
        match rest with
        | String c' rest' => contains c' claimed_directives && escaped rest'
        | EmptyString => false
        end
      else negb (contains c GPDate.directives) && escaped rest
  end.

(** Year, month and day of a date or a datetime. *)
Definition calendar_date (d : pydate) : Z * Z * Z :=
  match d with
  | Date y m dd | DateTime y m dd _ _ _ _ => (y, m, dd)
  end.

(** The geometry module reads back what it writes for the spatial
    reference and for each feature of a layer. *)
Definition geometry_roundtrips `{GeometryFunctions}
    (x : GPFeatureRecordSetLayer.instance) : Prop :=
  (∃ a, convert_from_json
          (SpatialReference_json_struct
             (GPFeatureRecordSetLayer.spatialReference' x)) = OK a
        ∧ srarg_bool a = true
        ∧ SpatialReference_new a
          = OK (GPFeatureRecordSetLayer.spatialReference' x))
  ∧ ∀ g, g ∈ GPFeatureRecordSetLayer.features x →
      ∃ d geo attrs,
        _json_struct_for_featureset g = PDict d
        ∧ d !! "geometry" = Some geo ∧ d !! "attributes" = Some attrs
        ∧ convert_from_json_attributes geo attrs = OK g.

(** The test [isinstance(value, (list, tuple)) and len(value) == 2] of
    [GPLinearUnit.__init__]. *)
Definition is_pair (value : pyval) : bool :=
  match value with
  | PList [_; _] | PTuple [_; _] => true
  | _ => false
  end.

(** The body of the list comprehension of
    [GPFeatureRecordSetLayer.from_json_struct]:
    [geometry.convert_from_json(geo['geometry'], geo['attributes'])]. *)
Definition decode_feature `{GeometryFunctions} (geo : pyval)
  : result Geometry :=
  g ← getitem geo "geometry";
  a ← getitem geo "attributes";
  convert_from_json_attributes g a.

(** [isinstance(date, (datetime.date, datetime.datetime))] *)
Definition isinstance_date (value : pyval) : bool :=
  match value with
  | PDate _ => true
  | _ => false
  end.

(** * Properties *)

(** ** Strings and the re-escaping loop *)

Lemma append_nil (s : string) : EmptyString +:+ s = s.
Proof. reflexivity. Qed.

Lemma append_cons (c : ascii) (s1 s2 : string) :
  String c s1 +:+ s2 = String c (s1 +:+ s2).
Proof. reflexivity. Qed.

Lemma append_assoc (s1 s2 s3 : string) :
  (s1 +:+ s2) +:+ s3 = s1 +:+ (s2 +:+ s3).
Proof.
  induction s1 as [|c s1 IH]; [done|].
  by rewrite !append_cons, IH.
Qed.

Lemma replace_app old new s1 s2 :
  replace old new (s1 +:+ s2) = replace old new s1 +:+ replace old new s2.
Proof.
  induction s1 as [|c s1 IH]; [done|].
  rewrite append_cons. simpl. rewrite IH.
  destruct (Ascii.eqb c old); [|done].
  by rewrite append_assoc.
Qed.

Lemma replace_absent old new s :
  contains old s = false → replace old new s = s.
Proof.
  induction s as [|c s IH]; simpl; [done|].
  intros [Hc Hs]%orb_false_iff. rewrite Hc. by rewrite IH.
Qed.

Lemma replace_empty_filter old s :
  String.list_ascii_of_string (replace old EmptyString s)
  = filter (λ c, c ≠ old) (String.list_ascii_of_string s).
Proof.
  induction s as [|c s IH]; simpl; [done|].
  destruct (Ascii.eqb_spec c old) as [->|Hne].
  - rewrite filter_cons_False; [|by intros []]. done.
  - rewrite filter_cons_True; [|done]. simpl. by rewrite IH.
Qed.

Lemma contains_cons c c' s :
  contains c (String c' s) = Ascii.eqb c' c || contains c s.
Proof. reflexivity. Qed.

Lemma contains_elem_of c s :
  contains c s = true ↔ c ∈ String.list_ascii_of_string s.
Proof.
  induction s as [|c' s IH]; simpl.
  - split; [done|]. by intros ?%elem_of_nil.
  - rewrite orb_true_iff, elem_of_cons, IH, Ascii.eqb_eq.
    split; (intros [?|?]; [by left|by right]).
Qed.

(** One pass of the loop body of [GPDate.from_json_struct]. *)
Local Abbreviation step :=
  (λ (fs : string) (chr : ascii), replace chr (String "%" (String chr EmptyString)) fs).

Lemma loop_app l s1 s2 :
  foldl step (s1 +:+ s2) l = foldl step s1 l +:+ foldl step s2 l.
Proof.
  revert s1 s2. induction l as [|a l IH]; intros s1 s2; simpl; [done|].
  by rewrite replace_app, IH.
Qed.

Lemma loop_untouched l s :
  (∀ chr, chr ∈ l → contains chr s = false) → foldl step s l = s.
Proof.
  induction l as [|a l IH]; intros Hl; simpl; [done|].
  rewrite replace_absent by (apply Hl; left).
  apply IH. intros chr ?. apply Hl. by right.
Qed.

Lemma replace_cons old new c s :
  replace old new (String c s)
  = if Ascii.eqb c old then new +:+ replace old new s
    else String c (replace old new s).
Proof. reflexivity. Qed.

Lemma step_char c chr :
  replace chr (String "%" (String chr EmptyString)) (String c EmptyString)
  = if Ascii.eqb c chr then String "%" (String chr EmptyString)
    else String c EmptyString.
Proof. rewrite replace_cons. by destruct (Ascii.eqb c chr). Qed.

Lemma loop_escaped l c :
  c ∉ l → "%"%char ∉ l →
  foldl step (String "%" (String c EmptyString)) l
  = String "%" (String c EmptyString).
Proof.
  intros Hc Hpc. apply loop_untouched. intros chr Hchr.
  rewrite !contains_cons. cbn [contains]. rewrite orb_false_r.
  apply orb_false_iff; split; apply Ascii.eqb_neq; congruence.
Qed.

Lemma loop_escapes l c :
  NoDup l → "%"%char ∉ l → c ∈ l →
  foldl step (String c EmptyString) l = String "%" (String c EmptyString).
Proof.
  induction l as [|a l IH]; intros Hnd Hpc Hc; [by apply elem_of_nil in Hc|].
  apply NoDup_cons in Hnd as [Ha Hnd]. apply not_elem_of_cons in Hpc as [Hpa Hpc].
  cbn [foldl]. rewrite step_char.
  destruct (Ascii.eqb_spec c a) as [->|Hne].
  - by apply loop_escaped.
  - apply IH; [done..|]. by apply elem_of_cons in Hc as [?|?].
Qed.

Lemma loop_char l c :
  NoDup l → "%"%char ∉ l →
  foldl step (String c EmptyString) ("%"%char :: l)
  = if decide (c ∈ "%"%char :: l)
    then String "%" (String c EmptyString) else String c EmptyString.
Proof.
  intros Hnd Hpc. cbn [foldl]. rewrite step_char.
  destruct (Ascii.eqb_spec c "%") as [->|Hne].
  - rewrite decide_True by left. by apply loop_escaped.
  - destruct (decide (c ∈ "%"%char :: l)) as [Hc|Hc].
    + apply loop_escapes; [done..|]. by apply elem_of_cons in Hc as [?|?].
    + apply loop_untouched. intros chr Hchr.
      rewrite contains_cons. cbn [contains]. rewrite orb_false_r.
      apply Ascii.eqb_neq. intros ->. apply Hc. by right.
Qed.

Lemma reescape_char c :
  GPDate.reescape (String c EmptyString)
  = if contains c GPDate.directives
    then String "%" (String c EmptyString) else String c EmptyString.
Proof.
  unfold GPDate.reescape.
  change (String.list_ascii_of_string GPDate.directives)
    with ("%"%char :: String.list_ascii_of_string claimed_directives).
  rewrite loop_char by compute_done.
  destruct (contains c GPDate.directives) eqn:Hc.
  - apply contains_elem_of in Hc. by rewrite decide_True.
  - rewrite decide_False; [done|]. intros Hin.
    apply (proj2 (contains_elem_of c GPDate.directives)) in Hin. congruence.
Qed.

Lemma reescape_insert_percent f :
  GPDate.reescape f = insert_percent GPDate.directives f.
Proof.
  induction f as [|c f IH]; [done|].
  change (String c f) with (String c EmptyString +:+ f).
  unfold GPDate.reescape in *. rewrite loop_app.
  fold (GPDate.reescape (String c EmptyString)). rewrite reescape_char, IH.
  change (String c EmptyString +:+ f) with (String c f).
  cbn [insert_percent].
  by destruct (contains c GPDate.directives).
Qed.

Lemma replace_without_percent s :
  replace "%" EmptyString s = without_percent s.
Proof.
  unfold without_percent. rewrite <- replace_empty_filter.
  by rewrite String.string_of_list_ascii_of_string.
Qed.

Lemma try_except_same {A} (r : result A) : try_except r r = r.
Proof. by destruct r. Qed.

(** ** Dates *)

(** C3: for every GPDate instance, [_json_struct] is the object whose
    [date] is the stored date formatted with [self.format] (here [s], what
    [strftime] returns) and whose [format] is [self.format] with every
    percent sign removed. *)
Theorem date_encode `{Runtime} (self : GPDate.instance) (s : string) :
  strftime (GPDate.date self) (GPDate.format self) = OK s →
  GPDate._json_struct self
  = OK (PDict {[ "date" := PStr s;
                 "format" := PStr (without_percent (GPDate.format self)) ]}).
Proof.
  intros Hs. unfold GPDate._json_struct. rewrite Hs. simpl.
  by rewrite replace_without_percent.
Qed.


(** C2, amended: given an object whose [date] and [format] are strings,
    [GPDate.from_json_struct] puts a percent sign before every occurrence
    of each character of [%aAbBcdHIjmMpSUwWxXyYZ] in the format (the percent
    sign itself included) and before no other character, then parses the
    date string with that format, falling back to the fixed format when
    that fails; given a bare string it parses with the fixed format
    [%a %b %d %H:%M:%S %Z %Y]. *)
Theorem date_decode `{Runtime} (d : gmap string pyval) (s f : string) :
  d !! "date" = Some (PStr s) → d !! "format" = Some (PStr f) →
  let format := insert_percent GPDate.directives f in
  GPDate.from_json_struct (PDict d)
  = (parsed ← try_except (strptime s format) (strptime s GPDate.__date_format);
     OK (Some {| GPDate.date := parsed; GPDate.format := format |}))
  ∧ GPDate.from_json_struct (PStr s)
    = (parsed ← strptime s GPDate.__date_format;
       OK (Some {| GPDate.date := parsed; GPDate.format := GPDate.__date_format |})).
Proof.
  intros Hd Hf format. split.
  - unfold GPDate.from_json_struct, getitem. rewrite Hd, Hf. simpl.
    rewrite reescape_insert_percent. fold format.
    unfold GPDate.__init__. simpl.
    by destruct (try_except _ _).
  - unfold GPDate.from_json_struct, GPDate.__init__. simpl.
    rewrite try_except_same. by destruct (strptime _ _).
Qed.


(** ** Linear units *)

(** What the constructor does on a value that is not a pair. *)
Lemma linear_unit_init_plain `{Runtime} (value unit : pyval) :
  is_pair value = false →
  GPLinearUnit.__init__ value unit
  = d ← py_float value;
    match unit with
    | PNone =>
        OK {| GPLinearUnit.distance := d; GPLinearUnit.units := "esriMeters" |}
    | PStr u =>
        if decide (u ∈ GPLinearUnit.allowed_units)
        then OK {| GPLinearUnit.distance := d; GPLinearUnit.units := u |}
        else Raise (AssertionError "Unit %r not valid" [unit])
    | _ =>
        if hashable unit
        then args ← mod_args unit;
             Raise (AssertionError "Unit %r not valid" args)
        else Raise TypeError
    end.
Proof.
  unfold GPLinearUnit.__init__. generalize GPLinearUnit.allowed_units.
  intros allowed Hpair.
  destruct value as [| | | | |[|a [|b [|c xs]]]|[|a [|b [|c xs]]]| | |];
    try reflexivity; discriminate Hpair.
Qed.

Lemma py_float_not_pair `{Runtime} (value : pyval) (d : spec_float) :
  py_float value = OK d → is_pair value = false.
Proof. by destruct value as [| | | | |[|a [|b [|c xs]]]|[|a [|b [|c xs]]]| | |]. Qed.



(** C10: on a value that is neither a dict nor a string,
    [GPDate.from_json_struct] returns [None]: no exception, no instance. *)
Theorem date_decode_other_input `{Runtime} `{GeometryFunctions}
    (value : pyval) :
  isinstance_dict value = false → isinstance_basestring value = false →
  GPDate.from_json_struct value = OK None
  ∧ from_json_struct TDate value = OK (Plain PNone).
Proof.
  intros Hdict Hstr.
  assert (GPDate.from_json_struct value = OK None) as Hnone
    by (by destruct value).
  split; [done|]. unfold from_json_struct. by rewrite Hnone.
Qed.

(** ** Scalars *)

(** C7: for each scalar type and every input, [from_json_struct] is the
    conversion function of the type ([bool], [float], [long], [str])
    applied to the input: it returns the bare primitive that the
    conversion yields, never an instance, and raises what the conversion
    raises.  It is the conversion that encodes an instance holding the
    input.  Decoding [True] as a Boolean yields [True]. *)
Theorem scalar_decode `{Runtime} `{GeometryFunctions}
    (c : scalar) (value : pyval) :
  from_json_struct (TSimple c) value
  = match c with
    | GPBoolean => OK (Plain (PBool (py_bool value)))
    | GPDouble => f ← py_float value; OK (Plain (PFloat f))
    | GPLong => z ← py_long value; OK (Plain (PInt z))
    | GPString => s ← py_str value; OK (Plain (PStr s))
    end
  ∧ from_json_struct (TSimple c) value
    = (p ← GPSimpleType._json_struct (GPSimpleType.__init__ c value);
       OK (Plain p))
  ∧ (∀ o, from_json_struct (TSimple c) value = OK o →
       ∃ p, o = Plain p ∧ primitive c p
            ∧ GPSimpleType.__conversion__ c value = OK p)
  ∧ (∀ e, from_json_struct (TSimple c) value = Raise e
          ↔ GPSimpleType.__conversion__ c value = Raise e)
  ∧ from_json_struct (TSimple GPBoolean) (PBool true)
    = OK (Plain (PBool true)).
Proof.
  unfold from_json_struct, GPSimpleType.from_json_struct,
    GPSimpleType._json_struct.
  cbn [GPSimpleType.__init__ GPSimpleType.cls GPSimpleType.value].
  split; [|split; [done|split; [|split; [|done]]]].
  - destruct c; cbn [GPSimpleType.__conversion__ mbind result_bind];
      [done|by destruct (py_float value)|by destruct (py_long value)
      |by destruct (py_str value)].
  - intros o Ho.
    destruct (GPSimpleType.__conversion__ c value) as [p|e] eqn:Hp;
      simpl in Ho; [|done].
    injection Ho as <-. exists p. split; [done|]. split; [|done].
    destruct c; simpl in Hp.
    + by injection Hp as <-.
    + destruct (py_float value); simpl in Hp; [by injection Hp as <-|done].
    + destruct (py_long value); simpl in Hp; [by injection Hp as <-|done].
    + destruct (py_str value); simpl in Hp; [by injection Hp as <-|done].
  - intros e.
    destruct (GPSimpleType.__conversion__ c value); simpl; split; congruence.
Qed.

(** A failing conversion is the failure of [from_json_struct]. *)
Lemma scalar_decode_raises `{Runtime} `{GeometryFunctions}
    (c : scalar) (value : pyval) (e : exn) :
  from_json_struct (TSimple c) value = Raise e
  ↔ GPSimpleType.__conversion__ c value = Raise e.
Proof.
  unfold from_json_struct, GPSimpleType.from_json_struct.
  destruct (GPSimpleType.__conversion__ c value); simpl; split; congruence.
Qed.

(** ** Textual representation *)

Lemma serialisable_singleton (k : string) (v : pyval) :
  serialisable (PDict {[ k := v ]}) = serialisable v.
Proof.
  cbn [serialisable]. rewrite map_fold_singleton. apply andb_true_r.
Qed.

(** C9 at [GPDataFile]: the class declares [_json_struct] without
    [@property], so the attribute is a bound method, [json.dumps] rejects
    it and the textual representation is a [TypeError]; the wire value
    that the method would return, were it called, is the [url] object. *)
Theorem data_file_str `{Runtime} `{GeometryFunctions} (url : pyval) :
  let self := GPDataFile.__init__ url in
  getattr_json_struct (IDataFile self)
  = OK (PBoundMethod "GPDataFile" "_json_struct")
  ∧ __str__ (IDataFile self) = Raise TypeError
  ∧ GPDataFile._json_struct self = PDict {[ "url" := url ]}
  ∧ json_dumps (GPDataFile._json_struct self)
    = if serialisable url
      then OK (JSONEncoder (PDict {[ "url" := url ]})) else Raise TypeError.
Proof.
  intros self. repeat split.
  unfold json_dumps, GPDataFile._json_struct. simpl GPDataFile.url.
  by rewrite serialisable_singleton.
Qed.

(** The sibling [GPUrlWithFormatType] declares the property: its textual
    representation is the JSON text of its wire value. *)
Lemma url_with_format_str `{Runtime} `{GeometryFunctions}
    (self : GPUrlWithFormatType.instance) :
  __str__ (IUrlWithFormat self)
  = json_dumps (PDict {[ "url" := GPUrlWithFormatType.url self;
                         "format" := GPUrlWithFormatType.format self ]}).
Proof. reflexivity. Qed.

(** ** The registry *)

(** From 2.6 on the call of [type.__init__] raises before anything is
    registered, whatever the class and the registry. *)
Lemma define_from26 (g : GPBaseType.globals) (cls : pyclass) :
  GPBaseType.define From26 g cls = (g, Raise TypeError).
Proof. reflexivity. Qed.

(** Before 2.6 the call returns: once [GPBaseType] is bound, a class
    statement registers the class unless its name holds the separator;
    while it is unbound, nothing is registered and nothing is raised. *)
Lemma define_bound (m : gmap string pyclass) (cls : pyclass) :
  GPBaseType.define Before26 (Some m) cls
  = (Some (if contains "|" (__name__ cls) then m
           else <[__name__ cls := cls]> m), OK tt).
Proof.
  unfold GPBaseType.define, GPBaseType.__metaclass__.__init__.
  cbn [type_init]. by destruct (contains "|" (__name__ cls)).
Qed.

Lemma define_unbound (cls : pyclass) :
  GPBaseType.define Before26 None cls = (None, OK tt).
Proof.
  unfold GPBaseType.define, GPBaseType.__metaclass__.__init__.
  cbn [type_init]. by destruct (contains "|" (__name__ cls)).
Qed.

Lemma class_statements_from26 (g : GPBaseType.globals) (defs : list pyclass) :
  defs ≠ [] →
  GPBaseType.class_statements From26 g defs = (g, Raise TypeError).
Proof. by destruct defs. Qed.

(** C8: from Python 2.6 on, the class statement of every type whose
    metaclass is this one raises [TypeError] in its first statement,
    [type.__init__(name, bases, dict)], and leaves the registry as it
    was: the type is not registered, whether or not its name holds the
    separator.  The same holds for any sequence of such class
    statements, and for the module itself, whose import ends in the
    class statement of [GPBaseType] with that error and nothing
    bound. *)
Theorem registry_define (cls : pyclass) (g : GPBaseType.globals) :
  GPBaseType.define From26 g cls = (g, Raise TypeError)
  ∧ (∀ name, GPBaseType.lookup_type (GPBaseType.define From26 g cls).1 name
             = GPBaseType.lookup_type g name)
  ∧ (∀ defs, GPBaseType.class_statements From26 g (cls :: defs)
             = (g, Raise TypeError))
  ∧ GPBaseType.module_loaded From26 = (None, Raise TypeError).
Proof.
  split; [apply define_from26|]. split; [|split].
  - intros name. by rewrite define_from26.
  - intros defs. by apply class_statements_from26.
  - reflexivity.
Qed.

(** ** Feature record set layers *)

Section FeatureLayer.
Context `{GeometryFunctions}.
Implicit Types (self : GPFeatureRecordSetLayer.instance)
               (g : Geometry) (t : string).

Lemma elem_of_geometry_types (fs : list Geometry) t :
  t ∈ (list_to_set (__geometry_type__ <$> fs) : gset string)
  ↔ ∃ g, g ∈ fs ∧ __geometry_type__ g = t.
Proof.
  rewrite elem_of_list_to_set, list_elem_of_fmap. split.
  - intros (g & -> & Hg). eauto.
  - intros (g & Hg & <-). eauto.
Qed.

Lemma geometry_types_single (fs : list Geometry) g t :
  g ∈ fs → (∀ g', g' ∈ fs → __geometry_type__ g' = t) →
  elements (list_to_set (__geometry_type__ <$> fs) : gset string) = [t].
Proof.
  intros Hg Hall.
  assert ((list_to_set (__geometry_type__ <$> fs) : gset string) = {[ t ]})
    as ->; [|apply elements_singleton].
  apply set_eq. intros t'.
  rewrite elem_of_geometry_types, elem_of_singleton. split.
  - intros (g' & Hg' & <-). by apply Hall.
  - intros ->. exists g. split; [done|]. by apply Hall.
Qed.

Lemma geometry_types_elements (fs : list Geometry) t :
  elements (list_to_set (__geometry_type__ <$> fs) : gset string) = [t] →
  fs ≠ [] ∧ ∀ g, g ∈ fs → __geometry_type__ g = t.
Proof.
  intros Hel. split.
  - intros ->. simpl in Hel. by rewrite elements_empty in Hel.
  - intros g Hg.
    assert (__geometry_type__ g ∈ elements
              (list_to_set (__geometry_type__ <$> fs) : gset string)) as Hin.
    { apply elem_of_elements, elem_of_geometry_types. eauto. }
    rewrite Hel in Hin. by apply list_elem_of_singleton in Hin.
Qed.

(** What [_json_struct] does, by the number of distinct tags. *)
Lemma json_struct_cases self :
  (∃ t, GPFeatureRecordSetLayer.features self ≠ []
        ∧ (∀ g, g ∈ GPFeatureRecordSetLayer.features self →
                __geometry_type__ g = t)
        ∧ GPFeatureRecordSetLayer._json_struct self
          = OK (PDict
              {[ "geometryType" := PStr t;
                 "spatialReference" :=
                   SpatialReference_json_struct
                     (GPFeatureRecordSetLayer.spatialReference' self);
                 "features" :=
                   PList (_json_struct_for_featureset
                            <$> GPFeatureRecordSetLayer.features self) ]}))
  ∨ (GPFeatureRecordSetLayer._json_struct self = Raise InconsistentGeometry
     ∧ ∀ t, ¬ (GPFeatureRecordSetLayer.features self ≠ []
               ∧ ∀ g, g ∈ GPFeatureRecordSetLayer.features self →
                      __geometry_type__ g = t)).
Proof.
  unfold GPFeatureRecordSetLayer._json_struct.
  destruct (elements _) as [|t [|t' l]] eqn:Hel.
  - right. split; [done|]. intros t [Hne Hall].
    destruct (GPFeatureRecordSetLayer.features self) as [|g fs] eqn:Hfs; [done|].
    rewrite (geometry_types_single _ g t) in Hel; [done|by left|done].
  - left. exists t. by destruct (geometry_types_elements _ _ Hel).
  - right. split; [done|]. intros t0 [Hne Hall].
    destruct (GPFeatureRecordSetLayer.features self) as [|g fs] eqn:Hfs; [done|].
    rewrite (geometry_types_single _ g t0) in Hel; [done|by left|done].
Qed.

(** What [__init__] does, by the truth value of [sr] and the feature
    list. *)
Lemma init_cases (arg : GPFeatureRecordSetLayer.geometry_arg) (sr : srarg) :
  GPFeatureRecordSetLayer.__init__ arg sr
  = spatialreference ←
      (if srarg_bool sr then SpatialReference_new sr
       else match features_of arg with
            | first :: _ => SpatialReference_new (spatialReference first)
            | [] => Raise MissingSpatialReference
            end);
    OK {| GPFeatureRecordSetLayer.features := features_of arg;
          GPFeatureRecordSetLayer.spatialReference' := spatialreference;
          GPFeatureRecordSetLayer.fields :=
            ⋃ (GPFeatureRecordSetLayer.row_fields <$> features_of arg) |}.
Proof. by destruct arg. Qed.
End FeatureLayer.

(** C5, amended: [_json_struct] of a feature record set layer fails with
    the inconsistent-geometry assertion if and only if the feature list is
    empty or two of its features report different geometry-type tags;
    when all features report the tag of the first one it emits the object
    with that tag, the encoded spatial reference and the encoded features
    in feature order. *)
Theorem feature_layer_encode `{GeometryFunctions}
    (self : GPFeatureRecordSetLayer.instance) :
  (GPFeatureRecordSetLayer._json_struct self = Raise InconsistentGeometry
   ↔ GPFeatureRecordSetLayer.features self = []
     ∨ ∃ g g', g ∈ GPFeatureRecordSetLayer.features self
               ∧ g' ∈ GPFeatureRecordSetLayer.features self
               ∧ __geometry_type__ g ≠ __geometry_type__ g')
  ∧ (∀ first rest,
       GPFeatureRecordSetLayer.features self = first :: rest →
       (∀ g, g ∈ rest → __geometry_type__ g = __geometry_type__ first) →
       GPFeatureRecordSetLayer._json_struct self
       = OK (PDict
           {[ "geometryType" := PStr (__geometry_type__ first);
              "spatialReference" :=
                SpatialReference_json_struct
                  (GPFeatureRecordSetLayer.spatialReference' self);
              "features" :=
                PList (_json_struct_for_featureset <$> first :: rest) ]})).
Proof.
  destruct (json_struct_cases self) as [(t & Hne & Hall & Hok)|[Hraise Hnone]].
  - split.
    + rewrite Hok. split; [done|].
      intros [Hnil|(g & g' & Hg & Hg' & Hdiff)]; [done|].
      destruct Hdiff. by rewrite (Hall g), (Hall g').
    + intros first rest Hfs _. rewrite Hok, Hfs.
      rewrite <- (Hall first) by (rewrite Hfs; left). done.
  - split.
    + split; [|done]. intros _.
      destruct (GPFeatureRecordSetLayer.features self) as [|g0 rest] eqn:Hfs;
        [by left|right].
      destruct (decide (Forall (λ g, __geometry_type__ g = __geometry_type__ g0)
                          (g0 :: rest))) as [Hall|Hex].
      * destruct (Hnone (__geometry_type__ g0)). split; [done|].
        by apply Forall_forall.
      * apply not_Forall_Exists in Hex; [|apply _].
        apply Exists_exists in Hex as (g & Hg & Hdiff).
        exists g, g0. split; [done|]. split; [by left|done].
    + intros first rest Hfs Hall.
      destruct (Hnone (__geometry_type__ first)). rewrite Hfs.
      split; [done|]. intros g [->|Hg]%elem_of_cons; [done|by apply Hall].
Qed.

(** C6, amended: provided the constructor of [geometry.SpatialReference]
    does not itself raise that condition, constructing a feature record
    set layer fails with the missing-spatial-reference error exactly when
    the feature list is empty and the [sr] argument is false in a boolean
    context (omitted, [None], or a supplied value such as 0); when [sr] is
    false and the list is not empty, the spatial reference is built from
    the first feature's own; when [sr] is true it is built from [sr]. *)
Theorem feature_layer_construction `{GeometryFunctions}
    (arg : GPFeatureRecordSetLayer.geometry_arg) (sr : srarg) :
  (∀ a, SpatialReference_new a ≠ Raise MissingSpatialReference) →
  (GPFeatureRecordSetLayer.__init__ arg sr = Raise MissingSpatialReference
   ↔ features_of arg = [] ∧ srarg_bool sr = false)
  ∧ (∀ first rest,
       srarg_bool sr = false → features_of arg = first :: rest →
       GPFeatureRecordSetLayer.__init__ arg sr
       = s ← SpatialReference_new (spatialReference first);
         OK {| GPFeatureRecordSetLayer.features := first :: rest;
               GPFeatureRecordSetLayer.spatialReference' := s;
               GPFeatureRecordSetLayer.fields :=
                 ⋃ (GPFeatureRecordSetLayer.row_fields <$> first :: rest) |})
  ∧ (srarg_bool sr = true →
     GPFeatureRecordSetLayer.__init__ arg sr
     = s ← SpatialReference_new sr;
       OK {| GPFeatureRecordSetLayer.features := features_of arg;
             GPFeatureRecordSetLayer.spatialReference' := s;
             GPFeatureRecordSetLayer.fields :=
               ⋃ (GPFeatureRecordSetLayer.row_fields <$> features_of arg) |}).
Proof.
  intros Hnew. rewrite init_cases. split; [|split].
  - destruct (srarg_bool sr).
    + split; [|by intros [_ ?]].
      destruct (SpatialReference_new sr) as [s|e] eqn:Hsr; simpl; [done|].
      intros [= ->]. by destruct (Hnew sr).
    + destruct (features_of arg) as [|first rest]; [by split|].
      split; [|by intros [? _]].
      destruct (SpatialReference_new (spatialReference first)) as [s|e] eqn:Hsr;
        simpl; [done|].
      intros [= ->]. by destruct (Hnew (spatialReference first)).
  - intros first rest -> ->. done.
  - intros ->. done.
Qed.

(** ** Round trips *)

Lemma escaped_cons c f :
  escaped (String c f)
  = if Ascii.eqb c "%" then
      match f with
      | String c' rest' => contains c' claimed_directives && escaped rest'
      | EmptyString => false
      end
    else negb (contains c GPDate.directives) && escaped f.
Proof. reflexivity. Qed.

Lemma directive_letter c :
  contains c claimed_directives = true →
  c ≠ "%"%char ∧ contains c GPDate.directives = true.
Proof.
  intros Hc. split.
  - intros ->. by vm_compute in Hc.
  - change GPDate.directives with (String "%" claimed_directives).
    by rewrite contains_cons, Hc, orb_true_r.
Qed.

Lemma escaped_reescape_aux f :
  (escaped f = true →
   insert_percent GPDate.directives (replace "%" EmptyString f) = f)
  ∧ (∀ c, escaped (String c f) = true →
          insert_percent GPDate.directives
            (replace "%" EmptyString (String c f)) = String c f).
Proof.
  induction f as [|a f [IH1 IH2]].
  - split; [done|]. intros c. rewrite escaped_cons, replace_cons.
    destruct (Ascii.eqb_spec c "%") as [->|Hc]; [done|].
    intros [Hdir _]%andb_true_iff. apply negb_true_iff in Hdir.
    cbn [replace insert_percent]. by rewrite Hdir.
  - split; [apply IH2|]. intros c. rewrite escaped_cons, replace_cons.
    destruct (Ascii.eqb_spec c "%") as [->|Hc].
    + intros [Ha Hf]%andb_true_iff. rewrite append_nil, replace_cons.
      destruct (directive_letter a Ha) as [Hne Hdir].
      apply Ascii.eqb_neq in Hne. rewrite Hne.
      cbn [insert_percent]. by rewrite Hdir, (IH1 Hf).
    + intros [Hdir Hf]%andb_true_iff. apply negb_true_iff in Hdir.
      cbn [insert_percent]. by rewrite Hdir, (IH2 a Hf).
Qed.

(** Stripping the percent signs of an escaped format and re-escaping the
    result gives the format back. *)
Lemma escaped_reescape f :
  escaped f = true → GPDate.reescape (replace "%" EmptyString f) = f.
Proof.
  intros Hf. rewrite reescape_insert_percent.
  by apply escaped_reescape_aux.
Qed.

Lemma conversion_idempotent `{Runtime} (c : scalar) (v p : pyval) :
  GPSimpleType.__conversion__ c v = OK p →
  GPSimpleType.__conversion__ c p = OK p.
Proof.
  destruct c; simpl.
  - by intros [= <-].
  - destruct (py_float v); simpl; [by intros [= <-]|done].
  - destruct (py_long v); simpl; [by intros [= <-]|done].
  - destruct (py_str v); simpl; [by intros [= <-]|done].
Qed.

(** The constructor only lets allowed units through. *)
Lemma linear_unit_allowed `{Runtime} (value unit : pyval)
    (x : GPLinearUnit.instance) :
  GPLinearUnit.__init__ value unit = OK x →
  GPLinearUnit.units x ∈ GPLinearUnit.allowed_units.
Proof.
  assert ("esriMeters" ∈ GPLinearUnit.allowed_units) as Hdefault
    by (by vm_compute).
  unfold GPLinearUnit.__init__. revert Hdefault.
  generalize GPLinearUnit.allowed_units. intros allowed Hdefault.
  set (args := match value with
               | PList [a; b] | PTuple [a; b] => (a, b)
               | _ => (value, unit)
               end).
  destruct args as [value' unit'].
  destruct (py_float value') as [d|]; simpl; [|done].
  destruct unit' as [| | | |u| |xs| | |]; simpl; try done.
  - by intros [= <-].
  - destruct (decide (u ∈ allowed)); [|done].
    by intros [= <-].
  - destruct (forallb hashable xs); [|done].
    by destruct xs as [|elt [|elt' rest]].
Qed.

(** [GPDataFile]: the attribute is a bound method, which
    [from_json_struct] cannot subscript. *)
Lemma data_file_roundtrip `{Runtime} `{GeometryFunctions} (url : pyval) :
  roundtrip (IDataFile (GPDataFile.__init__ url)) = Raise TypeError.
Proof. reflexivity. Qed.

(** [GPRecordSet] has neither side of the conversion. *)
Lemma record_set_roundtrip `{Runtime} `{GeometryFunctions} (arg : pyval) :
  roundtrip (IRecordSet (GPRecordSet.__init__ arg))
  = Raise (AttributeError "_json_struct")
  ∧ ∀ value, from_json_struct TRecordSet value
             = Raise (AttributeError "from_json_struct").
Proof. by split. Qed.

Lemma getitem_dict (d : gmap string pyval) (key : string) (v : pyval) :
  d !! key = Some v → getitem (PDict d) key = OK v.
Proof. intros Hv. unfold getitem. by rewrite Hv. Qed.

Lemma lookup_second_of_three (k1 k2 k3 : string) (v1 v2 v3 : pyval) :
  k1 ≠ k2 →
  ({[ k1 := v1; k2 := v2; k3 := v3 ]} : gmap string pyval) !! k2 = Some v2.
Proof. intros. by rewrite lookup_insert_ne, lookup_insert_eq. Qed.

Lemma lookup_third_of_three (k1 k2 k3 : string) (v1 v2 v3 : pyval) :
  k1 ≠ k3 → k2 ≠ k3 →
  ({[ k1 := v1; k2 := v2; k3 := v3 ]} : gmap string pyval) !! k3 = Some v3.
Proof. intros. by rewrite !lookup_insert_ne, lookup_singleton_eq. Qed.

(** Decoding the encoded features one by one gives the features back. *)
Lemma mapM_features `{GeometryFunctions} (fs : list Geometry) :
  (∀ g, g ∈ fs →
     ∃ d geo attrs,
       _json_struct_for_featureset g = PDict d
       ∧ d !! "geometry" = Some geo ∧ d !! "attributes" = Some attrs
       ∧ convert_from_json_attributes geo attrs = OK g) →
  mapM (λ geo, g ← getitem geo "geometry";
               a ← getitem geo "attributes";
               convert_from_json_attributes g a)
       (_json_struct_for_featureset <$> fs) = OK fs.
Proof.
  induction fs as [|g fs IH]; intros Hfs; [done|].
  destruct (Hfs g) as (d & geo & attrs & Hjson & Hgeo & Hattrs & Hback);
    [by left|].
  cbn [fmap list_fmap mapM]. rewrite Hjson.
  rewrite (getitem_dict _ _ _ Hgeo). simpl.
  rewrite Hattrs. simpl. rewrite Hback. simpl.
  rewrite IH; [done|]. intros g' Hg'. apply Hfs. by right.
Qed.

Lemma feature_layer_roundtrip `{Runtime} `{GeometryFunctions}
    (x : GPFeatureRecordSetLayer.instance) (v : pyval) :
  geometry_roundtrips x →
  GPFeatureRecordSetLayer.fields x
  = ⋃ (GPFeatureRecordSetLayer.row_fields
         <$> GPFeatureRecordSetLayer.features x) →
  GPFeatureRecordSetLayer._json_struct x = OK v →
  roundtrip (IFeatureRecordSetLayer x)
  = OK (Instance (IFeatureRecordSetLayer x)).
Proof.
  intros [(a & Ha & Htrue & Hnew) Hfs] Hfields Hv.
  unfold roundtrip, getattr_json_struct. rewrite Hv.
  cbn [mbind result_bind type_of from_json_struct].
  destruct (json_struct_cases x) as [(t & _ & _ & Hok)|[Hraise _]];
    [|congruence].
  rewrite Hok in Hv. injection Hv as <-.
  unfold GPFeatureRecordSetLayer.from_json_struct.
  rewrite (getitem_dict _ "spatialReference" _
             (lookup_second_of_three
                "geometryType" "spatialReference" "features" _ _ _
                ltac:(done))).
  rewrite (getitem_dict _ "features" _
             (lookup_third_of_three
                "geometryType" "spatialReference" "features" _ _ _
                ltac:(done) ltac:(done))).
  cbn [mbind result_bind]. rewrite Ha.
  cbn [mbind result_bind]. rewrite (mapM_features _ Hfs).
  cbn [mbind result_bind]. rewrite init_cases, Htrue, Hnew.
  cbn [mbind result_bind features_of].
  destruct x as [fs sr fields]. simpl in *. by rewrite Hfields.
Qed.

(** C1, amended: decoding the encoding of [x] returns an instance equal
    to [x] for a linear unit built by its constructor and for a raster
    data or raster layer value; for a scalar it returns the bare
    primitive that [x] encodes to, not an instance; for a date whose
    format is escaped it returns the date that [strptime] reads back from
    what [strftime] wrote, with the same format; for a feature record set
    layer that encodes, it returns an equal instance when the geometry
    module reads back what it writes. *)
Theorem roundtrip_by_type `{Runtime} `{GeometryFunctions} :
  (∀ c value p,
     GPSimpleType._json_struct (GPSimpleType.__init__ c value) = OK p →
     roundtrip (ISimple (GPSimpleType.__init__ c value)) = OK (Plain p))
  ∧ (∀ value unit x,
       GPLinearUnit.__init__ value unit = OK x →
       roundtrip (ILinearUnit x) = OK (Instance (ILinearUnit x)))
  ∧ (∀ x, roundtrip (IUrlWithFormat x) = OK (Instance (IUrlWithFormat x)))
  ∧ (∀ x s d,
       escaped (GPDate.format x) = true →
       strftime (GPDate.date x) (GPDate.format x) = OK s →
       strptime s (GPDate.format x) = OK d →
       roundtrip (IDate x)
       = OK (Instance (IDate {| GPDate.date := d;
                                GPDate.format := GPDate.format x |})))
  ∧ (∀ x v,
       geometry_roundtrips x →
       GPFeatureRecordSetLayer.fields x
       = ⋃ (GPFeatureRecordSetLayer.row_fields
              <$> GPFeatureRecordSetLayer.features x) →
       GPFeatureRecordSetLayer._json_struct x = OK v →
       roundtrip (IFeatureRecordSetLayer x)
       = OK (Instance (IFeatureRecordSetLayer x))).
Proof.
  split; [|split; [|split; [|split]]]; [| | | |apply feature_layer_roundtrip].
  - intros c value p Hp. unfold roundtrip, getattr_json_struct.
    rewrite Hp. simpl.
    unfold GPSimpleType.from_json_struct.
    unfold GPSimpleType._json_struct in Hp. simpl in Hp.
    by rewrite (conversion_idempotent _ _ _ Hp).
  - intros value unit [d u] Hx.
    pose proof (linear_unit_allowed _ _ _ Hx) as Hu. simpl in Hu.
    unfold roundtrip, getattr_json_struct, from_json_struct. simpl.
    unfold GPLinearUnit.from_json_struct, GPLinearUnit._json_struct, getitem.
    simpl GPLinearUnit.distance. simpl GPLinearUnit.units.
    rewrite lookup_insert_eq. simpl.
    rewrite lookup_insert_ne by done. rewrite lookup_singleton_eq. simpl.
    unfold GPLinearUnit.__init__. simpl. by rewrite decide_True.
  - intros [c u f]. unfold roundtrip, getattr_json_struct, from_json_struct.
    simpl.
    unfold GPUrlWithFormatType.from_json_struct,
      GPUrlWithFormatType._json_struct, getitem.
    simpl GPUrlWithFormatType.url. simpl GPUrlWithFormatType.format.
    rewrite lookup_insert_eq. simpl.
    rewrite lookup_insert_ne by done. by rewrite lookup_singleton_eq.
  - intros [date format] s d Hesc Hs Hd. simpl in *.
    unfold roundtrip, getattr_json_struct, GPDate._json_struct. simpl.
    rewrite Hs. simpl. unfold from_json_struct, GPDate.from_json_struct, getitem.
    rewrite lookup_insert_eq. simpl.
    rewrite lookup_insert_ne by done. rewrite lookup_singleton_eq. simpl.
    rewrite (escaped_reescape _ Hesc).
    unfold GPDate.__init__. by rewrite Hd.
Qed.

(** * Further properties of the conversion layer *)

(** ** Linear units *)

(** X1: a single two-element list or tuple [[value, unit]] is unpacked
    and the separate [unit] argument is ignored; a list of any other
    length is handed to [float], which rejects it. *)
Theorem linear_unit_pair `{Runtime} (a b ignored : pyval) :
  is_pair a = false →
  GPLinearUnit.__init__ (PList [a; b]) ignored = GPLinearUnit.__init__ a b
  ∧ GPLinearUnit.__init__ (PTuple [a; b]) ignored = GPLinearUnit.__init__ a b
  ∧ (∀ xs unit, length xs ≠ 2%nat →
       GPLinearUnit.__init__ (PList xs) unit = Raise TypeError
       ∧ GPLinearUnit.__init__ (PTuple xs) unit = Raise TypeError).
Proof.
  intros Ha. rewrite (linear_unit_init_plain a b Ha).
  split; [reflexivity|]. split; [reflexivity|].
  intros xs unit Hlen.
  assert (is_pair (PList xs) = false ∧ is_pair (PTuple xs) = false) as [Hl Ht].
  { by destruct xs as [|x [|y [|z xs]]]. }
  by rewrite (linear_unit_init_plain _ unit Hl),
             (linear_unit_init_plain _ unit Ht).
Qed.

(** X2: whatever the constructor or [from_json_struct] returns has its
    [units] in the allowed set. *)
Theorem linear_unit_units_allowed `{Runtime} (x : GPLinearUnit.instance) :
  (∃ value unit, GPLinearUnit.__init__ value unit = OK x)
  ∨ (∃ val, GPLinearUnit.from_json_struct val = OK x) →
  GPLinearUnit.units x ∈ GPLinearUnit.allowed_units.
Proof.
  intros [(value & unit & Hx)|(val & Hx)].
  - by apply (linear_unit_allowed value unit).
  - unfold GPLinearUnit.from_json_struct in Hx.
    destruct (getitem val "distance") as [dist|]; [|done].
    destruct (getitem val "units") as [u|]; [|done].
    by apply (linear_unit_allowed dist u).
Qed.

(** X3: how [from_json_struct] fails: on anything but a dict with a
    [TypeError]; on a dict without ["distance"] with that [KeyError],
    whether or not ["units"] is there; with ["distance"] but without
    ["units"] with the [KeyError] of ["units"]; and when [float] rejects
    the distance, with the error of [float], before the unit is looked
    at. *)
Theorem linear_unit_decode_errors `{Runtime} :
  (∀ val, isinstance_dict val = false →
     GPLinearUnit.from_json_struct val = Raise TypeError)
  ∧ (∀ d : gmap string pyval, d !! "distance" = None →
       GPLinearUnit.from_json_struct (PDict d) = Raise (KeyError "distance"))
  ∧ (∀ (d : gmap string pyval) dist,
       d !! "distance" = Some dist → d !! "units" = None →
       GPLinearUnit.from_json_struct (PDict d) = Raise (KeyError "units"))
  ∧ (∀ (d : gmap string pyval) dist unit e,
       d !! "distance" = Some dist → d !! "units" = Some unit →
       is_pair dist = false → py_float dist = Raise e →
       GPLinearUnit.from_json_struct (PDict d) = Raise e).
Proof.
  unfold GPLinearUnit.from_json_struct, getitem. repeat split.
  - intros val Hval. by destruct val.
  - intros d Hd. by rewrite Hd.
  - intros d dist Hdist Hunits. by rewrite Hdist, Hunits.
  - intros d dist unit e Hdist Hunits Hpair He. rewrite Hdist, Hunits.
    cbn [mbind result_bind]. rewrite (linear_unit_init_plain _ _ Hpair).
    by rewrite He.
Qed.

(** X4: a JSON [null] for ["units"] decodes to the default unit. *)
Theorem linear_unit_decode_null_units `{Runtime}
    (d : gmap string pyval) (dist : pyval) (f : spec_float) :
  d !! "distance" = Some dist → d !! "units" = Some PNone →
  py_float dist = OK f →
  GPLinearUnit.from_json_struct (PDict d)
  = OK {| GPLinearUnit.distance := f; GPLinearUnit.units := "esriMeters" |}.
Proof.
  intros Hdist Hunits Hf. unfold GPLinearUnit.from_json_struct, getitem.
  rewrite Hdist, Hunits. cbn [mbind result_bind].
  rewrite (linear_unit_init_plain _ _ (py_float_not_pair _ _ Hf)).
  by rewrite Hf.
Qed.

(** X5: encoding what was decoded keeps the distance and the unit and
    nothing else of the JSON object. *)
Theorem linear_unit_encode_decode `{Runtime}
    (d : gmap string pyval) (dist : pyval) (f : spec_float) (u : string) :
  d !! "distance" = Some dist → d !! "units" = Some (PStr u) →
  py_float dist = OK f → u ∈ GPLinearUnit.allowed_units →
  (x ← GPLinearUnit.from_json_struct (PDict d);
   OK (GPLinearUnit._json_struct x))
  = OK (PDict {[ "distance" := PFloat f; "units" := PStr u ]}).
Proof.
  intros Hdist Hunits Hf Hu. unfold GPLinearUnit.from_json_struct, getitem.
  rewrite Hdist, Hunits. cbn [mbind result_bind].
  rewrite (linear_unit_init_plain _ _ (py_float_not_pair _ _ Hf)).
  rewrite Hf. cbn [mbind result_bind]. by rewrite decide_True.
Qed.

(** ** Dates *)

(** X6: constructing a date from a string.  When the supplied format
    parses the string, that date is stored.  When it does not, the
    exception is dropped and the string is parsed with the fixed format:
    the instance still carries the supplied format, and a failure is the
    failure of the second parse. *)
Theorem date_init_string `{Runtime} (s format : string) :
  (∀ d, strptime s format = OK d →
     GPDate.__init__ (PStr s) format
     = OK {| GPDate.date := d; GPDate.format := format |})
  ∧ (∀ e, strptime s format = Raise e →
       GPDate.__init__ (PStr s) format
       = d ← strptime s GPDate.__date_format;
         OK {| GPDate.date := d; GPDate.format := format |}).
Proof.
  unfold GPDate.__init__. split.
  - intros d Hd. by rewrite Hd.
  - intros e He. by rewrite He.
Qed.

(** X7: constructing a date from a value that is not a string: a date
    object is stored as it is, without parsing; any other value is
    rejected while the message is built with [%]: a tuple whose length
    is not 1 is a [TypeError] of the formatting, a tuple of one element
    the [ValueError] that names the element, anything else the
    [ValueError] that names the value. *)
Theorem date_init_other `{Runtime} (date : pyval) (format : string) :
  isinstance_basestring date = false →
  GPDate.__init__ date format
  = match date with
    | PDate d => OK {| GPDate.date := d; GPDate.format := format |}
    | PTuple [x] => Raise (ValueError "Cannot convert %r to a date" [x])
    | PTuple _ => Raise TypeError
    | _ => Raise (ValueError "Cannot convert %r to a date" [date])
    end.
Proof.
  intros Hdate. destruct date as [| | | | | |[|x [|y xs]]| | |]; done.
Qed.

(** X8: how [from_json_struct] fails on a dict: without ["date"] with
    that [KeyError], whether or not ["format"] is there; with ["date"]
    but without ["format"] with the [KeyError] of ["format"]; with a
    format that is JSON data but not a string (a number, a list, [null],
    ...) with an [AttributeError], whatever the date is. *)
Theorem date_decode_errors `{Runtime} (d : gmap string pyval) :
  (d !! "date" = None →
   GPDate.from_json_struct (PDict d) = Raise (KeyError "date"))
  ∧ (∀ date, d !! "date" = Some date → d !! "format" = None →
       GPDate.from_json_struct (PDict d) = Raise (KeyError "format"))
  ∧ (∀ date format,
       d !! "date" = Some date → d !! "format" = Some format →
       isinstance_basestring format = false →
       isinstance_date format = false →
       GPDate.from_json_struct (PDict d) = Raise (AttributeError "replace")).
Proof.
  unfold GPDate.from_json_struct, getitem. repeat split.
  - intros Hdate. by rewrite Hdate.
  - intros date Hdate Hformat. by rewrite Hdate, Hformat.
  - intros date format Hdate Hformat Hstr Hnodate. rewrite Hdate, Hformat.
    by destruct format.
Qed.

Lemma without_percent_cons c f :
  without_percent (String c f)
  = if Ascii.eqb c "%" then without_percent f
    else String c (without_percent f).
Proof.
  rewrite <- !replace_without_percent, replace_cons.
  by destruct (Ascii.eqb c "%").
Qed.

Lemma without_percent_insert_percent alphabet f :
  without_percent (insert_percent alphabet f) = without_percent f.
Proof.
  induction f as [|c f IH]; [done|]. cbn [insert_percent].
  destruct (contains c alphabet).
  - rewrite (without_percent_cons "%"), Ascii.eqb_refl.
    by rewrite !(without_percent_cons c), IH.
  - by rewrite !(without_percent_cons c), IH.
Qed.

(** The format of a decoded date is the re-escaped wire format. *)
Lemma date_decode_format `{Runtime} (d : gmap string pyval) (f : string)
    (x : GPDate.instance) :
  d !! "format" = Some (PStr f) →
  GPDate.from_json_struct (PDict d) = OK (Some x) →
  GPDate.format x = GPDate.reescape f.
Proof.
  intros Hf. unfold GPDate.from_json_struct, getitem. rewrite Hf.
  destruct (d !! "date") as [date|]; cbn [mbind result_bind]; [|done].
  unfold GPDate.__init__.
  destruct (match date with PStr s => _ | _ => _ end) as [dt|];
    cbn [mbind result_bind]; [|done].
  by intros [= <-].
Qed.

(** X9: re-encoding a date that was decoded from a JSON object gives the
    wire format back, with its percent signs (if it had any) removed:
    the stripping of [_json_struct] undoes the re-escaping of
    [from_json_struct]. *)
Theorem date_encode_decode_format `{Runtime} (d : gmap string pyval)
    (f s : string) (x : GPDate.instance) :
  d !! "format" = Some (PStr f) →
  GPDate.from_json_struct (PDict d) = OK (Some x) →
  strftime (GPDate.date x) (GPDate.format x) = OK s →
  GPDate._json_struct x
  = OK (PDict {[ "date" := PStr s; "format" := PStr (without_percent f) ]}).
Proof.
  intros Hf Hx Hs. unfold GPDate._json_struct. rewrite Hs.
  cbn [mbind result_bind].
  rewrite replace_without_percent, (date_decode_format d f x Hf Hx).
  by rewrite reescape_insert_percent, without_percent_insert_percent.
Qed.

Lemma escaped_insert_percent f :
  contains "%" f = false →
  escaped (insert_percent GPDate.directives f) = true.
Proof.
  induction f as [|c f IH]; [done|].
  rewrite contains_cons. intros Hcf.
  apply orb_false_iff in Hcf as [Hc Hf]. apply Ascii.eqb_neq in Hc.
  cbn [insert_percent]. destruct (contains c GPDate.directives) eqn:Hdir.
  - rewrite escaped_cons, Ascii.eqb_refl.
    change GPDate.directives with (String "%" claimed_directives) in Hdir.
    rewrite contains_cons in Hdir.
    destruct (Ascii.eqb_spec "%" c) as [Heq|_]; [by destruct Hc|].
    rewrite orb_false_l in Hdir. by rewrite Hdir, (IH Hf).
  - rewrite escaped_cons.
    destruct (Ascii.eqb_spec c "%") as [Heq|_]; [by destruct Hc|].
    by rewrite Hdir, (IH Hf).
Qed.

(** X10: for a wire format without percent signs, the format that
    [from_json_struct] builds is escaped, so stripping its percent signs
    and re-escaping gives it back, and stripping alone gives the wire
    format back. *)
Theorem reescape_fixed_point (f : string) :
  contains "%" f = false →
  escaped (GPDate.reescape f) = true
  ∧ GPDate.reescape (replace "%" EmptyString (GPDate.reescape f))
    = GPDate.reescape f
  ∧ replace "%" EmptyString (GPDate.reescape f) = f.
Proof.
  intros Hf.
  assert (escaped (GPDate.reescape f) = true) as Hesc.
  { rewrite reescape_insert_percent. by apply escaped_insert_percent. }
  split; [done|]. split; [by apply escaped_reescape|].
  rewrite replace_without_percent, reescape_insert_percent,
    without_percent_insert_percent, <- replace_without_percent.
  by apply replace_absent.
Qed.

(** ** Data files, raster data and raster layers *)

(** X11: [GPDataFile].  Calling the method [_json_struct] and decoding
    the result gives the instance back; decoding a dict with a ["url"]
    keeps that value, whatever it is, and re-encoding keeps nothing
    else; a dict without ["url"] is a [KeyError], anything but a dict a
    [TypeError]. *)
Theorem data_file_codec :
  (∀ x, GPDataFile.from_json_struct (GPDataFile._json_struct x) = OK x)
  ∧ (∀ (d : gmap string pyval) u, d !! "url" = Some u →
       GPDataFile.from_json_struct (PDict d) = OK (GPDataFile.__init__ u)
       ∧ GPDataFile._json_struct (GPDataFile.__init__ u)
         = PDict {[ "url" := u ]})
  ∧ (∀ d : gmap string pyval, d !! "url" = None →
       GPDataFile.from_json_struct (PDict d) = Raise (KeyError "url"))
  ∧ (∀ value, isinstance_dict value = false →
       GPDataFile.from_json_struct value = Raise TypeError).
Proof.
  unfold GPDataFile.from_json_struct, GPDataFile._json_struct, getitem.
  split; [|split; [|split]].
  - intros [u]. cbn [GPDataFile.url]. by rewrite lookup_singleton_eq.
  - intros d u Hu. by rewrite Hu.
  - intros d Hd. by rewrite Hd.
  - intros value Hvalue. by destruct value.
Qed.

(** X12: [GPRasterData] and [GPRasterLayer].  Decoding a dict with
    ["url"] and ["format"] stores the two values without looking at
    them, and re-encoding keeps only these two keys; ["url"] is looked up
    first, so a dict without it fails with the [KeyError] of ["url"]
    whether or not ["format"] is there; the two classes decode alike. *)
Theorem url_with_format_codec (c : urlformat) (d : gmap string pyval) :
  (∀ u f, d !! "url" = Some u → d !! "format" = Some f →
     GPUrlWithFormatType.from_json_struct c (PDict d)
     = OK (GPUrlWithFormatType.__init__ c u f)
     ∧ GPUrlWithFormatType._json_struct (GPUrlWithFormatType.__init__ c u f)
       = PDict {[ "url" := u; "format" := f ]})
  ∧ (d !! "url" = None →
     GPUrlWithFormatType.from_json_struct c (PDict d) = Raise (KeyError "url"))
  ∧ (∀ u, d !! "url" = Some u → d !! "format" = None →
       GPUrlWithFormatType.from_json_struct c (PDict d)
       = Raise (KeyError "format"))
  ∧ (∀ x, GPUrlWithFormatType.from_json_struct GPRasterData (PDict d) = OK x →
       GPUrlWithFormatType.from_json_struct GPRasterLayer (PDict d)
       = OK (GPUrlWithFormatType.__init__ GPRasterLayer
               (GPUrlWithFormatType.url x) (GPUrlWithFormatType.format x))).
Proof.
  unfold GPUrlWithFormatType.from_json_struct, getitem.
  split; [|split; [|split]].
  - intros u f Hu Hf. by rewrite Hu, Hf.
  - intros Hu. by rewrite Hu.
  - intros u Hu Hf. by rewrite Hu, Hf.
  - destruct (d !! "url") as [u|]; cbn [mbind result_bind]; [|done].
    destruct (d !! "format") as [f|]; cbn [mbind result_bind]; [|done].
    by intros x [= <-].
Qed.

(** ** Scalars *)

(** X13: decoding a scalar is idempotent, and wrapping a decoded
    primitive in the type and encoding it gives the primitive back. *)
Theorem scalar_decode_idempotent `{Runtime}
    (c : scalar) (value p : pyval) :
  GPSimpleType.from_json_struct c value = OK p →
  GPSimpleType.from_json_struct c p = OK p
  ∧ GPSimpleType._json_struct (GPSimpleType.__init__ c p) = OK p.
Proof.
  unfold GPSimpleType.from_json_struct, GPSimpleType._json_struct.
  intros Hp. cbn [GPSimpleType.__init__ GPSimpleType.cls GPSimpleType.value].
  by rewrite (conversion_idempotent c value p Hp).
Qed.

(** ** The registry *)

(** X14: a class statement, whether it raises or not, changes the
    registry at the name of the class only; on an interpreter before
    2.6, where the call of [type.__init__] returns, a later class of
    the same name replaces the earlier one. *)
Theorem registry_frame_and_overwrite (py : interpreter)
    (g : option (gmap string pyclass)) (cls : pyclass) :
  (∀ name, name ≠ __name__ cls →
     GPBaseType.lookup_type (GPBaseType.define py g cls).1 name
     = GPBaseType.lookup_type g name)
  ∧ (∀ m later, g = Some m → __name__ later = __name__ cls →
       contains "|" (__name__ cls) = false →
       GPBaseType.lookup_type
         (GPBaseType.class_statements Before26 g [cls; later]).1
         (__name__ cls)
       = Some later).
Proof.
  split.
  - intros name Hname. destruct py; [|by rewrite define_from26].
    destruct g as [m|]; [|by rewrite define_unbound].
    rewrite define_bound.
    destruct (contains "|" (__name__ cls)); [done|].
    unfold GPBaseType.lookup_type. simpl. by rewrite lookup_insert_ne.
  - intros m later -> Hsame Hsep. cbn [GPBaseType.class_statements].
    rewrite define_bound, Hsep, define_bound, Hsame, Hsep.
    unfold GPBaseType.lookup_type. simpl. rewrite <- Hsame.
    by rewrite lookup_insert_eq.
Qed.

(** X15: the registry never loses a name: what is registered stays
    registered, possibly for a later class of that name, through any
    sequence of class statements, whether or not one of them raises. *)
Theorem registry_keeps_names (py : interpreter) (defs : list pyclass)
    (g : option (gmap string pyclass)) (name : string) (cls : pyclass) :
  GPBaseType.lookup_type g name = Some cls →
  is_Some (GPBaseType.lookup_type
             (GPBaseType.class_statements py g defs).1 name).
Proof.
  destruct py.
  2: { intros Hg. destruct defs as [|c defs]; [by eexists|].
       rewrite class_statements_from26 by done. by eexists. }
  revert g cls. induction defs as [|c defs IH]; intros g cls Hg; [by eexists|].
  cbn [GPBaseType.class_statements].
  destruct g as [m|]; [|discriminate Hg]. rewrite define_bound.
  destruct (contains "|" (__name__ c)); [by apply (IH _ cls)|].
  destruct (decide (__name__ c = name)) as [<-|Hne].
  - apply (IH _ c). unfold GPBaseType.lookup_type. simpl.
    by rewrite lookup_insert_eq.
  - apply (IH _ cls). unfold GPBaseType.lookup_type in *. simpl in *.
    by rewrite lookup_insert_ne.
Qed.

(** ** Textual representation *)

(** X16: when [str(x)] returns, it returns the JSON text of the value of
    the attribute [x._json_struct], and [x] is neither a record set
    (which has no such attribute) nor a data file (whose attribute is a
    method). *)
Theorem str_returns_json `{Runtime} `{GeometryFunctions}
    (self : instance) (s : string) :
  __str__ self = OK s →
  ∃ v, getattr_json_struct self = OK v ∧ serialisable v = true
       ∧ s = JSONEncoder v
       ∧ type_of self ≠ TRecordSet ∧ type_of self ≠ TDataFile.
Proof.
  unfold __str__, json_dumps.
  destruct (getattr_json_struct self) as [v|] eqn:Hv;
    cbn [mbind result_bind]; [|done].
  destruct (serialisable v) eqn:Hser; [|done].
  intros [= <-]. exists v. repeat split; [done|..].
  - by destruct self.
  - destruct self; try done. injection Hv as <-. done.
Qed.

(** ** Feature record set layers *)

Lemma mapM_Forall2 {A B} (f : A → result B) (l : list A) (l' : list B) :
  mapM f l = OK l' → Forall2 (λ a b, f a = OK b) l l'.
Proof.
  revert l'. induction l as [|a l IH]; intros l' Hl'; cbn [mapM] in Hl'.
  - injection Hl' as <-. constructor.
  - destruct (f a) as [b|] eqn:Hb; cbn [mbind result_bind] in Hl'; [|done].
    destruct (mapM f l) as [bs|]; cbn [mbind result_bind] in Hl'; [|done].
    injection Hl' as <-. constructor; [done|by apply IH].
Qed.

(** What a layer that the constructor returned holds. *)
Lemma feature_layer_init_inv `{GeometryFunctions}
    (arg : GPFeatureRecordSetLayer.geometry_arg) (sr : srarg)
    (x : GPFeatureRecordSetLayer.instance) :
  GPFeatureRecordSetLayer.__init__ arg sr = OK x →
  GPFeatureRecordSetLayer.features x = features_of arg
  ∧ GPFeatureRecordSetLayer.fields x
    = ⋃ (GPFeatureRecordSetLayer.row_fields <$> features_of arg)
  ∧ (if srarg_bool sr then SpatialReference_new sr
     else match features_of arg with
          | first :: _ => SpatialReference_new (spatialReference first)
          | [] => Raise MissingSpatialReference
          end)
    = OK (GPFeatureRecordSetLayer.spatialReference' x).
Proof.
  rewrite init_cases.
  destruct (if srarg_bool sr then _ else _) as [s|];
    cbn [mbind result_bind]; [|done].
  by intros [= <-].
Qed.

(** What a successful decoding went through. *)
Lemma feature_layer_decode_inv `{GeometryFunctions}
    (d : gmap string pyval) (x : GPFeatureRecordSetLayer.instance) :
  GPFeatureRecordSetLayer.from_json_struct (PDict d) = OK x →
  ∃ sr a fj gs,
    d !! "spatialReference" = Some sr ∧ convert_from_json sr = OK a
    ∧ d !! "features" = Some fj
    ∧ (∀ geos, fj = PList geos ∨ fj = PTuple geos →
         mapM decode_feature geos = OK gs)
    ∧ GPFeatureRecordSetLayer.__init__ (GPFeatureRecordSetLayer.Many gs) a
      = OK x.
Proof.
  unfold GPFeatureRecordSetLayer.from_json_struct, getitem.
  destruct (d !! "spatialReference") as [sr|];
    cbn [mbind result_bind]; [|done].
  destruct (convert_from_json sr) as [a|] eqn:Ha;
    cbn [mbind result_bind]; [|done].
  destruct (d !! "features") as [fj|]; cbn [mbind result_bind]; [|done].
  destruct (match fj with PList _ => _ | _ => _ end) as [gs|] eqn:Hgs;
    cbn [mbind result_bind]; [|done].
  intros Hx. exists sr, a, fj, gs.
  split; [done|]. split; [done|]. split; [done|]. split; [|done].
  intros geos [->| ->]; exact Hgs.
Qed.

(** X17: a constructed layer holds the features it was given, and its
    [fields] are exactly the attribute names of its features: a name is
    a field if and only if some feature has attributes with that key.  A
    feature without attributes adds nothing. *)
Theorem feature_layer_fields `{GeometryFunctions}
    (arg : GPFeatureRecordSetLayer.geometry_arg) (sr : srarg)
    (x : GPFeatureRecordSetLayer.instance) :
  GPFeatureRecordSetLayer.__init__ arg sr = OK x →
  GPFeatureRecordSetLayer.features x = features_of arg
  ∧ ∀ name, name ∈ GPFeatureRecordSetLayer.fields x
      ↔ ∃ row attrs, row ∈ features_of arg ∧ attributes row = Some attrs
                     ∧ is_Some (attrs !! name).
Proof.
  intros Hx. destruct (feature_layer_init_inv arg sr x Hx) as (Hfs & -> & _).
  split; [done|]. intros name. rewrite elem_of_union_list. split.
  - intros (X & HX & Hname). apply list_elem_of_fmap in HX as (row & -> & Hrow).
    unfold GPFeatureRecordSetLayer.row_fields in Hname.
    destruct (attributes row) as [attrs|] eqn:Hattrs; simpl in Hname.
    + exists row, attrs. by rewrite <- elem_of_dom.
    + by apply not_elem_of_empty in Hname.
  - intros (row & attrs & Hrow & Hattrs & Hname).
    exists (GPFeatureRecordSetLayer.row_fields row). split.
    + apply list_elem_of_fmap. by exists row.
    + unfold GPFeatureRecordSetLayer.row_fields. rewrite Hattrs. simpl.
      by apply elem_of_dom.
Qed.

(** X18: a layer decoded from a JSON object whose ["features"] is a list
    holds one feature per element, in order, each the result of
    [convert_from_json] on the element's ["geometry"] and
    ["attributes"]; when that list is empty the decoded layer cannot be
    encoded again: its [_json_struct] raises the assertion. *)
Theorem feature_layer_decode_features `{GeometryFunctions}
    (d : gmap string pyval) (geos : list pyval)
    (x : GPFeatureRecordSetLayer.instance) :
  d !! "features" = Some (PList geos) →
  GPFeatureRecordSetLayer.from_json_struct (PDict d) = OK x →
  Forall2 (λ geo g, decode_feature geo = OK g)
          geos (GPFeatureRecordSetLayer.features x)
  ∧ (geos = [] →
     GPFeatureRecordSetLayer._json_struct x = Raise InconsistentGeometry).
Proof.
  intros Hgeos Hx.
  destruct (feature_layer_decode_inv d x Hx)
    as (sr & a & fj & gs & _ & _ & Hfj & Hgs & Hinit).
  rewrite Hgeos in Hfj. injection Hfj as <-.
  specialize (Hgs geos (or_introl eq_refl)).
  destruct (feature_layer_init_inv _ _ _ Hinit) as (Hfs & _ & _).
  cbn [features_of] in Hfs.
  assert (Forall2 (λ geo g, decode_feature geo = OK g)
            geos (GPFeatureRecordSetLayer.features x)) as Hall.
  { rewrite Hfs. by apply mapM_Forall2. }
  split; [done|]. intros ->. apply Forall2_nil_inv_l in Hall.
  destruct (json_struct_cases x) as [(t & Hne & _)|[Hraise _]]; done.
Qed.

(** X19: how decoding a JSON object fails, in the order of the code:
    without ["spatialReference"] with that [KeyError], whatever else is
    there; when [convert_from_json] rejects the spatial reference, with
    its error, before ["features"] is looked at; then without
    ["features"] with the [KeyError] of ["features"]; and with an empty
    feature list and a converted spatial reference that is false in a
    boolean context, with the [ValueError] of the constructor. *)
Theorem feature_layer_decode_errors `{GeometryFunctions}
    (d : gmap string pyval) :
  (d !! "spatialReference" = None →
   GPFeatureRecordSetLayer.from_json_struct (PDict d)
   = Raise (KeyError "spatialReference"))
  ∧ (∀ sr e, d !! "spatialReference" = Some sr →
       convert_from_json sr = Raise e →
       GPFeatureRecordSetLayer.from_json_struct (PDict d) = Raise e)
  ∧ (∀ sr a, d !! "spatialReference" = Some sr →
       convert_from_json sr = OK a → d !! "features" = None →
       GPFeatureRecordSetLayer.from_json_struct (PDict d)
       = Raise (KeyError "features"))
  ∧ (∀ sr a, d !! "spatialReference" = Some sr →
       convert_from_json sr = OK a → srarg_bool a = false →
       d !! "features" = Some (PList []) →
       GPFeatureRecordSetLayer.from_json_struct (PDict d)
       = Raise MissingSpatialReference).
Proof.
  unfold GPFeatureRecordSetLayer.from_json_struct, getitem.
  split; [|split; [|split]].
  - intros Hsr. by rewrite Hsr.
  - intros sr e Hsr He. rewrite Hsr. cbn [mbind result_bind]. by rewrite He.
  - intros sr a Hsr Ha Hfs. rewrite Hsr. cbn [mbind result_bind].
    rewrite Ha. cbn [mbind result_bind]. by rewrite Hfs.
  - intros sr a Hsr Ha Hfalse Hfs. rewrite Hsr. cbn [mbind result_bind].
    rewrite Ha. cbn [mbind result_bind]. rewrite Hfs.
    cbn [mbind result_bind mapM]. rewrite init_cases, Hfalse. done.
Qed.

(** X20: where the spatial reference of a decoded layer comes from.  It
    is built from the converted ["spatialReference"] of the JSON object
    only when that object is true in a boolean context; otherwise it is
    built from the spatial reference of the first decoded feature. *)
Theorem feature_layer_decode_spatial_reference `{GeometryFunctions}
    (d : gmap string pyval) (sr : pyval) (a : srarg)
    (x : GPFeatureRecordSetLayer.instance) :
  d !! "spatialReference" = Some sr → convert_from_json sr = OK a →
  GPFeatureRecordSetLayer.from_json_struct (PDict d) = OK x →
  if srarg_bool a
  then SpatialReference_new a
       = OK (GPFeatureRecordSetLayer.spatialReference' x)
  else ∃ first,
         head (GPFeatureRecordSetLayer.features x) = Some first
         ∧ SpatialReference_new (spatialReference first)
           = OK (GPFeatureRecordSetLayer.spatialReference' x).
Proof.
  intros Hsr Ha Hx.
  destruct (feature_layer_decode_inv d x Hx)
    as (sr' & a' & fj & gs & Hsr' & Ha' & _ & _ & Hinit).
  rewrite Hsr in Hsr'. injection Hsr' as <-.
  rewrite Ha in Ha'. injection Ha' as <-.
  destruct (feature_layer_init_inv _ _ _ Hinit) as (Hfs & _ & Hnew).
  cbn [features_of] in Hfs, Hnew. rewrite Hfs.
  destruct (srarg_bool a); [done|].
  destruct gs as [|first gs]; [done|]. by exists first.
Qed.

(** * Examples

    The statements above at concrete inputs, under the runtime and the
    geometry module of [Example]. *)
Section Examples.
Import Example.

(** The date 2020-01-15 with format [%Y-%m-%d]. *)
Lemma date_encode_witness :
  strftime Example.jan15 "%Y-%m-%d" = OK "2020-01-15"
  ∧ GPDate._json_struct {| GPDate.date := Example.jan15; GPDate.format := "%Y-%m-%d" |}
    = OK (PDict {[ "date" := PStr "2020-01-15"; "format" := PStr "Y-m-d" ]}).
Proof.
  split; [reflexivity|].
  exact (date_encode {| GPDate.date := Example.jan15; GPDate.format := "%Y-%m-%d" |}
           "2020-01-15" eq_refl).
Defined.


(** Decoding what the previous example encodes. *)
Lemma date_decode_witness :
  let d : gmap string pyval := {[ "date" := PStr "2020-01-15"; "format" := PStr "Y-m-d" ]} in
  d !! "date" = Some (PStr "2020-01-15") ∧ d !! "format" = Some (PStr "Y-m-d")
  ∧ GPDate.from_json_struct (PDict d)
    = OK (Some {| GPDate.date := DateTime 2020 1 15 0 0 0 0; GPDate.format := "%Y-%m-%d" |}).
Proof.
  intros d. split; [reflexivity|]. split; [reflexivity|].
  exact (proj1 (date_decode d "2020-01-15" "Y-m-d" eq_refl eq_refl)).
Defined.

(** A percent sign in the wire format is doubled, although it is not one
    of the directive letters. *)
Lemma date_decode_percent_counterexample :
  let value := PDict {[ "date" := PStr "15%"; "format" := PStr "d%" ]} in
  GPDate.from_json_struct value
  = OK (Some {| GPDate.date := DateTime 1900 1 15 0 0 0 0; GPDate.format := "%d%%" |})
  ∧ insert_percent claimed_directives "d%" = "%d%"
  ∧ GPDate.reescape "d%" ≠ insert_percent claimed_directives "d%".
Proof. split; [reflexivity|]. split; [reflexivity|]. discriminate. Qed.





(** A JSON number where a date is expected. *)
Lemma date_decode_other_input_witness :
  isinstance_dict (PInt 20200115) = false
  ∧ isinstance_basestring (PInt 20200115) = false
  ∧ GPDate.from_json_struct (PInt 20200115) = OK None
  ∧ from_json_struct TDate (PInt 20200115) = OK (Plain PNone).
Proof.
  split; [reflexivity|]. split; [reflexivity|].
  exact (date_decode_other_input (PInt 20200115) eq_refl eq_refl).
Defined.

(** Decoding the JSON [true] and the empty string as Booleans, ["42"]
    as a Long, 5 as a Double, 42 as a String, and a word as a Double. *)
Lemma scalar_decode_witness :
  from_json_struct (TSimple GPBoolean) (PBool true) = OK (Plain (PBool true))
  ∧ from_json_struct (TSimple GPBoolean) (PStr EmptyString)
    = OK (Plain (PBool false))
  ∧ from_json_struct (TSimple GPLong) (PStr "42") = OK (Plain (PInt 42))
  ∧ from_json_struct (TSimple GPDouble) (PInt 5)
    = OK (Plain (PFloat (S754_finite false 5629499534213120 (-50))))
  ∧ from_json_struct (TSimple GPString) (PInt 42) = OK (Plain (PStr "42"))
  ∧ from_json_struct (TSimple GPDouble) (PStr "far")
    = Raise (ValueError "could not convert string to float: %s" [PStr "far"]).
Proof.
  split; [exact (proj2 (proj2 (proj2 (proj2
                   (scalar_decode GPBoolean (PBool true))))))|].
  split; [exact (proj1 (scalar_decode GPBoolean (PStr EmptyString)))|].
  split; [rewrite (proj1 (scalar_decode GPLong (PStr "42")));
          vm_compute; reflexivity|].
  split; [rewrite (proj1 (scalar_decode GPDouble (PInt 5)));
          vm_compute; reflexivity|].
  split; [rewrite (proj1 (scalar_decode GPString (PInt 42)));
          vm_compute; reflexivity|].
  rewrite (proj1 (scalar_decode GPDouble (PStr "far"))).
  vm_compute. reflexivity.
Defined.

(** On Python 2.6 or later, the class statement of [Widget] raises and
    [Widget] is not registered; the import of the module itself ends
    the same way. *)
Lemma registry_define_witness :
  let Widget := ClassObject "Widget" ["GPBaseType"] in
  GPBaseType.define From26 (Some ∅) Widget = (Some ∅, Raise TypeError)
  ∧ GPBaseType.lookup_type (GPBaseType.define From26 (Some ∅) Widget).1 "Widget"
    = None
  ∧ GPBaseType.module_loaded From26 = (None, Raise TypeError).
Proof.
  intros Widget.
  destruct (registry_define Widget (Some ∅)) as (Hraises & Hlookup & _ & Hmodule).
  split; [exact Hraises|]. split; [|exact Hmodule].
  rewrite Hlookup. reflexivity.
Defined.

(** Before 2.6 the module loads.  The class statement of [GPBaseType]
    itself: its name holds no separator, yet the name [GPBaseType] is
    not bound while the metaclass runs, the [NameError] is swallowed,
    and the class is never a key of the registry; the thirteen classes
    that follow are. *)
Lemma registry_before26 :
  contains "|" (__name__ GPBaseType.class_GPBaseType) = false
  ∧ GPBaseType.setitem GPBaseType.class_GPBaseType None
    = Raise (NameError "GPBaseType")
  ∧ GPBaseType.__metaclass__.__init__ Before26 GPBaseType.class_GPBaseType None
    = (None, OK tt)
  ∧ GPBaseType.define_GPBaseType Before26 None = (Some ∅, OK tt)
  ∧ (GPBaseType.module_loaded Before26).2 = OK tt
  ∧ GPBaseType.lookup_type (GPBaseType.module_loaded Before26).1 "GPBaseType"
    = None
  ∧ Forall (λ cls, GPBaseType.lookup_type (GPBaseType.module_loaded Before26).1
                     (__name__ cls) = Some cls)
           GPBaseType.subclasses.
Proof.
  repeat (split; [vm_compute; reflexivity|]).
  repeat constructor; vm_compute; reflexivity.
Qed.

(** Two point features encode to one object; a point and a polygon fail
    the assertion. *)
Lemma feature_layer_encode_witness :
  let point := Feature "esriGeometryPoint" 4326 None in
  let polygon := Feature "esriGeometryPolygon" 4326 None in
  let layer (fs : list feature) :=
    {| GPFeatureRecordSetLayer.features := fs;
       GPFeatureRecordSetLayer.spatialReference' := 4326;
       GPFeatureRecordSetLayer.fields := ∅ |} in
  GPFeatureRecordSetLayer._json_struct (layer [point; point])
  = OK (PDict
      {[ "geometryType" := PStr "esriGeometryPoint";
         "spatialReference" := PDict {[ "wkid" := PInt 4326 ]};
         "features" :=
           PList [_json_struct_for_featureset point;
                  _json_struct_for_featureset point] ]})
  ∧ GPFeatureRecordSetLayer._json_struct (layer [point; polygon])
    = Raise InconsistentGeometry.
Proof.
  intros point polygon layer. split.
  - apply (proj2 (feature_layer_encode (layer [point; point]))
             point [point] eq_refl).
    intros g Hg. apply list_elem_of_singleton in Hg. by rewrite Hg.
  - apply (proj1 (feature_layer_encode (layer [point; polygon]))).
    right. exists point, polygon.
    split; [by left|]. split; [by right; left|]. discriminate.
Defined.

(** A layer built from an empty list and an explicit spatial reference:
    no two features differ, and encoding fails all the same. *)
Lemma feature_layer_empty_counterexample :
  let empty :=
    {| GPFeatureRecordSetLayer.features := [];
       GPFeatureRecordSetLayer.spatialReference' := 4326;
       GPFeatureRecordSetLayer.fields := ∅ |} in
  let identical :=
    ∀ g g', g ∈ GPFeatureRecordSetLayer.features empty →
            g' ∈ GPFeatureRecordSetLayer.features empty →
            __geometry_type__ g = __geometry_type__ g' in
  GPFeatureRecordSetLayer.__init__
    (GPFeatureRecordSetLayer.Many []) (SRValue (PInt 4326)) = OK empty
  ∧ GPFeatureRecordSetLayer._json_struct empty = Raise InconsistentGeometry
  ∧ identical
  ∧ ¬ (GPFeatureRecordSetLayer._json_struct empty = Raise InconsistentGeometry
       ↔ ¬ identical).
Proof.
  intros empty identical.
  assert (identical) as Hid by (intros g g' Hg; by apply elem_of_nil in Hg).
  split; [reflexivity|]. split; [reflexivity|]. split; [done|].
  intros [Hfails _]. by apply Hfails.
Qed.

Lemma example_new_not_missing (a : srarg) :
  SpatialReference_new a ≠ Raise MissingSpatialReference.
Proof.
  destruct a as [v|z]; [|done].
  destruct v as [| | | | | | |d| |]; try done.
  simpl. by destruct (d !! "wkid") as [[]|].
Qed.

(** With no [sr]: an empty list fails, a list of one point takes the
    spatial reference of the point. *)
Lemma feature_layer_construction_witness :
  let point : @Geometry geometry := Feature "esriGeometryPoint" 4326 None in
  GPFeatureRecordSetLayer.__init__
    (GPFeatureRecordSetLayer.Many []) (SRValue PNone)
  = Raise MissingSpatialReference
  ∧ GPFeatureRecordSetLayer.__init__
      (GPFeatureRecordSetLayer.Many [point]) (SRValue PNone)
    = OK {| GPFeatureRecordSetLayer.features := [point];
            GPFeatureRecordSetLayer.spatialReference' := 4326;
            GPFeatureRecordSetLayer.fields := ∅ |}.
Proof.
  intros point. split.
  - apply (proj1 (feature_layer_construction
                    (GPFeatureRecordSetLayer.Many []) (SRValue PNone)
                    example_new_not_missing)).
    by split.
  - rewrite (proj1 (proj2 (feature_layer_construction
                    (GPFeatureRecordSetLayer.Many [point]) (SRValue PNone)
                    example_new_not_missing)) point [] eq_refl eq_refl).
    reflexivity.
Defined.

(** An explicit spatial reference that is false in a boolean context: the
    well-known id 0 with an empty list. *)
Lemma feature_layer_falsy_sr_counterexample :
  let arg := GPFeatureRecordSetLayer.Many [] in
  let sr := SRValue (PInt 0) in
  sr ≠ SRValue PNone
  ∧ srarg_bool sr = false
  ∧ GPFeatureRecordSetLayer.__init__ arg sr = Raise MissingSpatialReference
  ∧ ¬ (GPFeatureRecordSetLayer.__init__ arg sr = Raise MissingSpatialReference
       ↔ features_of arg = [] ∧ sr = SRValue PNone).
Proof.
  intros arg sr. split; [discriminate|]. split; [reflexivity|].
  split; [reflexivity|]. intros [Hfails _].
  destruct (Hfails eq_refl) as [_ Hsr]. discriminate.
Qed.

(** The example geometry module reads back a point with (empty)
    attributes and the spatial reference 4326. *)
Lemma example_geometry_roundtrips :
  geometry_roundtrips
    (@GPFeatureRecordSetLayer.Build_instance geometry
       [Feature "esriGeometryPoint" 4326 (Some ∅)] 4326 ∅).
Proof.
  split.
  - eexists. split; [reflexivity|]. split; reflexivity.
  - intros g Hg. apply list_elem_of_singleton in Hg. subst g.
    eexists _, _, _. by repeat split.
Qed.

(** Round trips of a Boolean, of 5 metres, of a raster layer, of the
    date 2020-01-15 with format [%Y-%m-%d], which comes back as the
    datetime of the same calendar date, and of a layer of one point. *)
Lemma roundtrip_by_type_witness :
  let five := S754_finite false 5629499534213120 (-50) in
  let metres :=
    {| GPLinearUnit.distance := five; GPLinearUnit.units := "esriMeters" |} in
  let layer :=
    GPUrlWithFormatType.__init__ GPRasterLayer
      (PStr "http://example.com/dem") (PStr "png") in
  let day := {| GPDate.date := jan15; GPDate.format := "%Y-%m-%d" |} in
  let back :=
    {| GPDate.date := DateTime 2020 1 15 0 0 0 0;
       GPDate.format := "%Y-%m-%d" |} in
  let points :=
    @GPFeatureRecordSetLayer.Build_instance geometry
      [Feature "esriGeometryPoint" 4326 (Some ∅)] 4326 ∅ in
  roundtrip (ISimple (GPSimpleType.__init__ GPBoolean (PBool true)))
  = OK (Plain (PBool true))
  ∧ GPLinearUnit.__init__ (PInt 5) (PStr "esriMeters") = OK metres
  ∧ roundtrip (ILinearUnit metres) = OK (Instance (ILinearUnit metres))
  ∧ roundtrip (IUrlWithFormat layer) = OK (Instance (IUrlWithFormat layer))
  ∧ roundtrip (IDate day) = OK (Instance (IDate back))
  ∧ calendar_date (GPDate.date back) = calendar_date (GPDate.date day)
  ∧ roundtrip (IFeatureRecordSetLayer points)
    = OK (Instance (IFeatureRecordSetLayer points)).
Proof.
  intros five metres layer day back points.
  destruct roundtrip_by_type as (Hscalar & Hlinear & Hurl & Hdate & Hfeature).
  split; [exact (Hscalar GPBoolean (PBool true) (PBool true) eq_refl)|].
  split; [reflexivity|].
  split; [exact (Hlinear (PInt 5) (PStr "esriMeters") metres eq_refl)|].
  split; [exact (Hurl layer)|].
  split; [exact (Hdate day "2020-01-15" (DateTime 2020 1 15 0 0 0 0)
                   eq_refl eq_refl eq_refl)|].
  split; [reflexivity|].
  eapply (Hfeature points); [exact example_geometry_roundtrips| |];
    vm_compute; reflexivity.
Defined.

(** Decoding the encoding of a Boolean instance gives the primitive
    [True], which is not the instance. *)
Lemma roundtrip_scalar_counterexample :
  let x := ISimple (GPSimpleType.__init__ GPBoolean (PBool true)) in
  roundtrip x = OK (Plain (PBool true))
  ∧ roundtrip x ≠ OK (Instance x).
Proof. split; [reflexivity|discriminate]. Qed.

(** ** The further properties at concrete inputs *)

(** [GPLinearUnit([5, "esriFeet"], "esriMiles")] is 5 feet. *)
Lemma linear_unit_pair_witness :
  is_pair (PInt 5) = false
  ∧ GPLinearUnit.__init__ (PList [PInt 5; PStr "esriFeet"]) (PStr "esriMiles")
    = OK {| GPLinearUnit.distance := S754_finite false 5629499534213120 (-50);
            GPLinearUnit.units := "esriFeet" |}.
Proof.
  split; [reflexivity|].
  rewrite (proj1 (linear_unit_pair (PInt 5) (PStr "esriFeet")
                    (PStr "esriMiles") eq_refl)).
  vm_compute. reflexivity.
Defined.

(** The unit of [GPLinearUnit(5, "esriFeet")]. *)
Lemma linear_unit_units_allowed_witness :
  let feet :=
    {| GPLinearUnit.distance := S754_finite false 5629499534213120 (-50);
       GPLinearUnit.units := "esriFeet" |} in
  GPLinearUnit.__init__ (PInt 5) (PStr "esriFeet") = OK feet
  ∧ GPLinearUnit.units feet ∈ GPLinearUnit.allowed_units.
Proof.
  intros feet.
  assert (GPLinearUnit.__init__ (PInt 5) (PStr "esriFeet") = OK feet) as Hfeet
    by (vm_compute; reflexivity).
  split; [exact Hfeet|].
  apply (linear_unit_units_allowed feet). left.
  exists (PInt 5), (PStr "esriFeet"). exact Hfeet.
Defined.

(** An object with a unit and no distance; a distance that is not a
    number. *)
Lemma linear_unit_decode_errors_witness :
  GPLinearUnit.from_json_struct (PDict {[ "units" := PStr "esriFeet" ]})
  = Raise (KeyError "distance")
  ∧ GPLinearUnit.from_json_struct
      (PDict {[ "distance" := PStr "far"; "units" := PStr "esriFeet" ]})
    = Raise (ValueError "could not convert string to float: %s" [PStr "far"]).
Proof.
  destruct linear_unit_decode_errors as (_ & Hdistance & _ & Hfloat).
  split.
  - apply Hdistance. vm_compute. reflexivity.
  - apply (Hfloat _ (PStr "far") (PStr "esriFeet"));
      vm_compute; reflexivity.
Defined.

(** [{"distance": 5, "units": null}] is 5 metres. *)
Lemma linear_unit_decode_null_units_witness :
  GPLinearUnit.from_json_struct
    (PDict {[ "distance" := PInt 5; "units" := PNone ]})
  = OK {| GPLinearUnit.distance := S754_finite false 5629499534213120 (-50);
          GPLinearUnit.units := "esriMeters" |}.
Proof.
  apply (linear_unit_decode_null_units _ (PInt 5)); vm_compute; reflexivity.
Defined.

(** A distance given as a string and a key the type does not know. *)
Lemma linear_unit_encode_decode_witness :
  (x ← GPLinearUnit.from_json_struct
         (PDict {[ "distance" := PStr "5"; "units" := PStr "esriFeet";
                   "label" := PStr "buffer" ]});
   OK (GPLinearUnit._json_struct x))
  = OK (PDict {[ "distance" := PFloat (S754_finite false 5629499534213120 (-50));
                 "units" := PStr "esriFeet" ]}).
Proof.
  apply (linear_unit_encode_decode _ (PStr "5")); vm_compute; reflexivity.
Defined.

(** A date string the supplied format parses, and one it does not. *)
Lemma date_init_string_witness :
  GPDate.__init__ (PStr "2020-01-15") "%Y-%m-%d"
  = OK {| GPDate.date := DateTime 2020 1 15 0 0 0 0;
          GPDate.format := "%Y-%m-%d" |}
  ∧ GPDate.__init__ (PStr "15/01/2020") "%Y-%m-%d"
    = d ← strptime "15/01/2020" GPDate.__date_format;
      OK {| GPDate.date := d; GPDate.format := "%Y-%m-%d" |}.
Proof.
  destruct (date_init_string "2020-01-15" "%Y-%m-%d") as [Hparsed _].
  destruct (date_init_string "15/01/2020" "%Y-%m-%d") as [_ Hfallback].
  split.
  - apply Hparsed. vm_compute. reflexivity.
  - eapply Hfallback. vm_compute. reflexivity.
Defined.

(** [GPDate(5)] and [GPDate((2020, 1, 15))]. *)
Lemma date_init_other_witness :
  GPDate.__init__ (PInt 5) "%Y-%m-%d"
  = Raise (ValueError "Cannot convert %r to a date" [PInt 5])
  ∧ GPDate.__init__ (PTuple [PInt 2020; PInt 1; PInt 15]) "%Y-%m-%d"
    = Raise TypeError
  ∧ GPDate.__init__ (PDate jan15) "%Y-%m-%d"
    = OK {| GPDate.date := jan15; GPDate.format := "%Y-%m-%d" |}.
Proof.
  split; [exact (date_init_other (PInt 5) "%Y-%m-%d" eq_refl)|].
  split; [exact (date_init_other (PTuple [PInt 2020; PInt 1; PInt 15])
                   "%Y-%m-%d" eq_refl)|].
  exact (date_init_other (PDate jan15) "%Y-%m-%d" eq_refl).
Defined.

(** A format that is a number. *)
Lemma date_decode_errors_witness :
  GPDate.from_json_struct
    (PDict {[ "date" := PStr "2020-01-15"; "format" := PInt 3 ]})
  = Raise (AttributeError "replace")
  ∧ GPDate.from_json_struct (PDict {[ "format" := PStr "Y-m-d" ]})
    = Raise (KeyError "date").
Proof.
  split.
  - apply (proj2 (proj2 (date_decode_errors _)) (PStr "2020-01-15") (PInt 3));
      vm_compute; reflexivity.
  - apply (proj1 (date_decode_errors _)). vm_compute. reflexivity.
Defined.

(** A wire format that already has percent signs: they are doubled on
    the way in and all stripped on the way out. *)
Lemma date_encode_decode_format_witness :
  let d : gmap string pyval :=
    {[ "date" := PStr "%2020-%01-%15"; "format" := PStr "%Y-%m-%d" ]} in
  let x := {| GPDate.date := DateTime 2020 1 15 0 0 0 0;
              GPDate.format := "%%%Y-%%%m-%%%d" |} in
  GPDate.from_json_struct (PDict d) = OK (Some x)
  ∧ GPDate._json_struct x
    = OK (PDict {[ "date" := PStr "%2020-%01-%15"; "format" := PStr "Y-m-d" ]}).
Proof.
  intros d x.
  assert (GPDate.from_json_struct (PDict d) = OK (Some x)) as Hx
    by (vm_compute; reflexivity).
  split; [exact Hx|].
  apply (date_encode_decode_format d "%Y-%m-%d" "%2020-%01-%15" x);
    [vm_compute; reflexivity|exact Hx|vm_compute; reflexivity].
Defined.

(** The wire format [Y-m-d]. *)
Lemma reescape_fixed_point_witness :
  GPDate.reescape "Y-m-d" = "%Y-%m-%d"
  ∧ escaped (GPDate.reescape "Y-m-d") = true
  ∧ replace "%" EmptyString (GPDate.reescape "Y-m-d") = "Y-m-d".
Proof.
  destruct (reescape_fixed_point "Y-m-d" eq_refl) as (Hescaped & _ & Hback).
  split; [reflexivity|]. split; [exact Hescaped|exact Hback].
Defined.

(** A data file object with a key the type does not know. *)
Lemma data_file_codec_witness :
  let url := PStr "http://example.com/data.zip" in
  GPDataFile.from_json_struct (PDict {[ "url" := url; "size" := PInt 3 ]})
  = OK (GPDataFile.__init__ url)
  ∧ GPDataFile._json_struct (GPDataFile.__init__ url)
    = PDict {[ "url" := url ]}.
Proof.
  intros url.
  apply (proj1 (proj2 data_file_codec) _ url). vm_compute. reflexivity.
Defined.

(** A raster layer object without a format. *)
Lemma url_with_format_codec_witness :
  GPUrlWithFormatType.from_json_struct GPRasterLayer
    (PDict {[ "url" := PStr "http://example.com/dem" ]})
  = Raise (KeyError "format").
Proof.
  apply (proj1 (proj2 (proj2 (url_with_format_codec GPRasterLayer _)))
           (PStr "http://example.com/dem"));
    vm_compute; reflexivity.
Defined.

(** [GPLong.from_json_struct("42")] is 42, and decoding 42 again is 42. *)
Lemma scalar_decode_idempotent_witness :
  GPSimpleType.from_json_struct GPLong (PStr "42") = OK (PInt 42)
  ∧ GPSimpleType.from_json_struct GPLong (PInt 42) = OK (PInt 42)
  ∧ GPSimpleType._json_struct (GPSimpleType.__init__ GPLong (PInt 42))
    = OK (PInt 42).
Proof.
  assert (GPSimpleType.from_json_struct GPLong (PStr "42") = OK (PInt 42))
    as Hdecoded by (vm_compute; reflexivity).
  split; [exact Hdecoded|].
  exact (scalar_decode_idempotent GPLong (PStr "42") (PInt 42) Hdecoded).
Defined.

(** Two classes named [Widget], defined one after the other before
    2.6; the class statement of [Widget] leaves [Gadget] alone on either
    interpreter. *)
Lemma registry_frame_and_overwrite_witness :
  let first := ClassObject "Widget" ["GPBaseType"] in
  let second := ClassObject "Widget" ["GPSimpleType"] in
  GPBaseType.lookup_type
    (GPBaseType.class_statements Before26 (Some ∅) [first; second]).1 "Widget"
  = Some second
  ∧ GPBaseType.lookup_type (GPBaseType.define From26 (Some ∅) first).1 "Gadget"
    = GPBaseType.lookup_type (Some ∅) "Gadget"
  ∧ GPBaseType.lookup_type (GPBaseType.define Before26 (Some ∅) first).1 "Gadget"
    = GPBaseType.lookup_type (Some ∅) "Gadget".
Proof.
  intros first second.
  destruct (registry_frame_and_overwrite Before26 (Some ∅) first)
    as [Hframe Hlater].
  split; [exact (Hlater ∅ second eq_refl eq_refl eq_refl)|].
  split; [|apply Hframe; discriminate].
  apply (proj1 (registry_frame_and_overwrite From26 (Some ∅) first)).
  discriminate.
Defined.

(** [Widget] stays registered while the classes of the module are
    defined. *)
Lemma registry_keeps_names_witness :
  let widget := ClassObject "Widget" ["GPBaseType"] in
  is_Some (GPBaseType.lookup_type
             (GPBaseType.class_statements Before26
                (Some {[ "Widget" := widget ]}) GPBaseType.subclasses).1
             "Widget").
Proof.
  intros widget.
  apply (registry_keeps_names Before26 GPBaseType.subclasses _ "Widget" widget).
  vm_compute. reflexivity.
Defined.

(** The text of a raster layer. *)
Lemma str_returns_json_witness :
  let layer :=
    IUrlWithFormat
      (GPUrlWithFormatType.__init__ GPRasterLayer
         (PStr "http://example.com/dem") (PStr "png")) in
  ∃ s, __str__ layer = OK s
       ∧ ∃ v, getattr_json_struct layer = OK v ∧ serialisable v = true
              ∧ s = JSONEncoder v
              ∧ type_of layer ≠ TRecordSet ∧ type_of layer ≠ TDataFile.
Proof.
  intros layer.
  assert (∃ s, __str__ layer = OK s) as [s Hs].
  { unfold __str__, json_dumps. cbn [getattr_json_struct layer mbind result_bind].
    eexists. assert (serialisable
              (GPUrlWithFormatType._json_struct
                 (GPUrlWithFormatType.__init__ GPRasterLayer
                    (PStr "http://example.com/dem") (PStr "png"))) = true) as ->
      by (vm_compute; reflexivity).
    reflexivity. }
  exists s. split; [exact Hs|]. exact (str_returns_json layer s Hs).
Defined.

(** Two points, one with a [name] attribute and one without
    attributes. *)
Lemma feature_layer_fields_witness :
  let named : @Geometry geometry :=
    Feature "esriGeometryPoint" 4326 (Some {[ "name" := PStr "well" ]}) in
  let bare : @Geometry geometry := Feature "esriGeometryPoint" 4326 None in
  ∃ x, GPFeatureRecordSetLayer.__init__
         (GPFeatureRecordSetLayer.Many [named; bare]) (SRValue PNone) = OK x
       ∧ GPFeatureRecordSetLayer.features x = [named; bare]
       ∧ "name" ∈ GPFeatureRecordSetLayer.fields x.
Proof.
  intros named bare.
  assert (∃ x, GPFeatureRecordSetLayer.__init__
                 (GPFeatureRecordSetLayer.Many [named; bare]) (SRValue PNone)
               = OK x) as [x Hx] by (eexists; reflexivity).
  destruct (feature_layer_fields _ _ x Hx) as [Hfeatures Hfields].
  exists x. split; [exact Hx|]. split; [exact Hfeatures|].
  apply Hfields. exists named, {[ "name" := PStr "well" ]}.
  split; [by left|]. split; [reflexivity|]. by eexists.
Defined.

(** An object with an empty feature list decodes, and the layer does not
    encode. *)
Lemma feature_layer_decode_features_witness :
  let d : gmap string pyval :=
    {[ "spatialReference" := PDict {[ "wkid" := PInt 4326 ]};
       "features" := PList [] ]} in
  ∃ x, GPFeatureRecordSetLayer.from_json_struct (PDict d) = OK x
       ∧ GPFeatureRecordSetLayer.features x = []
       ∧ GPFeatureRecordSetLayer._json_struct x = Raise InconsistentGeometry.
Proof.
  intros d.
  assert (∃ x, GPFeatureRecordSetLayer.from_json_struct (PDict d) = OK x)
    as [x Hx] by (eexists; vm_compute; reflexivity).
  assert (d !! "features" = Some (PList [])) as Hd
    by (vm_compute; reflexivity).
  destruct (feature_layer_decode_features d [] x Hd Hx) as [Hall Hempty].
  exists x. split; [exact Hx|]. split.
  - by apply Forall2_nil_inv_l in Hall.
  - by apply Hempty.
Defined.

(** An object without a spatial reference; an empty feature list with
    a spatial reference that is not an object. *)
Lemma feature_layer_decode_errors_witness :
  GPFeatureRecordSetLayer.from_json_struct
    (PDict {[ "features" := PList [] ]})
  = Raise (KeyError "spatialReference")
  ∧ GPFeatureRecordSetLayer.from_json_struct
      (PDict {[ "spatialReference" := PInt 4326; "features" := PList [] ]})
    = Raise TypeError.
Proof.
  split.
  - apply (proj1 (feature_layer_decode_errors _)). vm_compute. reflexivity.
  - apply (proj1 (proj2 (feature_layer_decode_errors _)) (PInt 4326));
      vm_compute; reflexivity.
Defined.

(** The spatial reference of a decoded layer of one point. *)
Lemma feature_layer_decode_spatial_reference_witness :
  let d : gmap string pyval :=
    {[ "spatialReference" := PDict {[ "wkid" := PInt 4326 ]};
       "features" :=
         PList [PDict {[ "geometry" :=
                           PDict {[ "type" := PStr "esriGeometryPoint";
                                    "wkid" := PInt 3857 ]};
                         "attributes" := PDict ∅ ]}] ]} in
  ∃ x, GPFeatureRecordSetLayer.from_json_struct (PDict d) = OK x
       ∧ SpatialReference_new (SRObject 4326)
         = OK (GPFeatureRecordSetLayer.spatialReference' x).
Proof.
  intros d.
  assert (∃ x, GPFeatureRecordSetLayer.from_json_struct (PDict d) = OK x)
    as [x Hx] by (eexists; vm_compute; reflexivity).
  exists x. split; [exact Hx|].
  refine (feature_layer_decode_spatial_reference d
            (PDict {[ "wkid" := PInt 4326 ]}) (SRObject 4326) x _ _ Hx);
    vm_compute; reflexivity.
Defined.
End Examples.
